(** * Kivy Voice Notes: a shallow embedding of [kivy_voice_notes.py]

    The application object [VoiceNotesKivy] is embedded as a record [App]
    holding the attributes assigned in [build], together with the run-time
    objects the attributes refer to: the threads started so far, the
    callbacks handed to [Clock.schedule_once], the pop-ups opened, the files
    written and the history of calls on the speech queue and engine.

    Button handlers are functions [App -> App]; the bodies of the two
    background loops ([_tts_worker], [_listen_loop]) are cut at their blocking
    calls into program points, and one step of a thread moves it from one
    program point to the next.  Outcomes that the program does not decide
    (whether [pyttsx3.init] raises, what the recogniser returns) are carried
    by the action that takes the step.

    Python [str] values are embedded as [string]; every [ascii] stands for the
    code point of the same number, so the embedding covers the texts whose
    code points are below 256. *)

From Stdlib Require Import String Ascii List Bool Arith Lia.
From stdpp Require Import base list strings.
Import ListNotations.

(** ** Python string operations used by the program *)

Module PyStr.

(** [str.isspace] on one character, for code points below 256: the
    characters TAB..CR, FS..US, SPACE, NEL and NBSP. *)
Definition isspace (c : ascii) : bool :=
  let n := nat_of_ascii c in
  ((9 <=? n) && (n <=? 13)) || ((28 <=? n) && (n <=? 32))
  || (n =? 133) || (n =? 160).

(** Truth value of a string: [if text:] holds for the non-empty ones. *)
Definition truthy (s : string) : bool :=
  match s with
  | EmptyString => false
  | String _ _ => true
  end.

Fixpoint lstrip (s : string) : string :=
  match s with
  | EmptyString => EmptyString
  | String c s' => if isspace c then lstrip s' else s
  end.

Fixpoint rstrip (s : string) : string :=
  match s with
  | EmptyString => EmptyString
  | String c s' =>
      match rstrip s' with
      | EmptyString => if isspace c then EmptyString else String c EmptyString
      | r => String c r
      end
  end.

(** [s.strip()] *)
Definition strip (s : string) : string := rstrip (lstrip s).

(** [s.endswith(suf)]: some tail of [s] is [suf]. *)
Fixpoint endswith (s suf : string) : bool :=
  String.eqb s suf
  || match s with
     | EmptyString => false
     | String _ s' => endswith s' suf
     end.

(** [s.startswith(pre)] *)
Definition startswith (s pre : string) : bool := String.prefix pre s.

(** [x or y] on strings. *)
Definition or_else (x y : string) : string := if truthy x then x else y.

(** [s.split("/")]: the pieces between the separators, never an empty
    list. *)
Fixpoint split_slash (s : string) : list string :=
  match s with
  | EmptyString => [EmptyString]
  | String c s' =>
      if Ascii.eqb c "/"
      then EmptyString :: split_slash s'
      else match split_slash s' with
           | [] => [String c EmptyString]
           | h :: t => String c h :: t
           end
  end.

(** A string made of white space only (the empty one included). *)
Definition blank (s : string) : bool :=
  forallb isspace (list_ascii_of_string s).

(** Number of spaces at the end of a string. *)
Fixpoint trailing_spaces (s : string) : nat :=
  match s with
  | EmptyString => 0
  | String c s' =>
      if Ascii.eqb c " " && (trailing_spaces s' =? String.length s')
      then S (trailing_spaces s')
      else trailing_spaces s'
  end.

End PyStr.

(** ** [pathlib] paths (POSIX flavour) *)

Module PyPath.
Import PyStr.

(** A pure path: its root ([""] for a relative path, ["/"], or ["//"] when
    the text starts with exactly two slashes) and its components, the root
    not among them. *)
Record Path : Type := mkPath { root : string; parts : list string }.

(** [p.is_absolute()] *)
Definition absolute (p : Path) : bool := truthy (root p).

Definition kept_component (c : string) : bool :=
  negb (String.eqb c "") && negb (String.eqb c ".").

(** The root of a path text: exactly two leading slashes are kept as they
    are, one or more than two make the root ["/"]. *)
Definition root_of (s : string) : string :=
  if startswith s "//" && negb (startswith s "///") then "//"
  else if startswith s "/" then "/"
  else "".

(** [Path(s)]: empty and [.] components are dropped, [..] ones are kept. *)
Definition parse (s : string) : Path :=
  {| root := root_of s;
     parts := filter (fun c => Is_true (kept_component c)) (split_slash s) |}.

(** [p / seg]: an absolute right operand replaces the left one. *)
Definition joinpath (p : Path) (seg : string) : Path :=
  let q := parse seg in
  if absolute q then q
  else {| root := root p; parts := parts p ++ parts q |}.

(** [str(p)] *)
Definition render (p : Path) : string :=
  match root p, parts p with
  | EmptyString, [] => "."
  | r, l => r +:+ String.concat "/" l
  end.

(** [p] lies below the directory [dir]: it has the root of [dir], extends
    the components of [dir] by at least one component and never steps to a
    parent directory. *)
Definition inside (dir p : Path) : Prop :=
  root p = root dir /\
  exists rest, parts p = parts dir ++ rest /\ rest <> [] /\ ~ In ".." rest.

End PyPath.

(** ** The application object *)

Module VoiceNotes.
Import PyStr PyPath.

(** Module-level facts fixed when the program starts: whether the optional
    imports [speech_recognition] ([sr]) and [pyttsx3] succeeded, and the
    notes directory created in [build]. *)
Record Env : Type :=
  { sr : bool; pyttsx3 : bool; notes_dir : Path }.

Inductive Recognizer : Type := SrRecognizer.
Inductive Engine : Type := Pyttsx3Engine.

(** [self.recognizer = sr.Recognizer() if sr else None] *)
Definition recognizer (env : Env) : option Recognizer :=
  if sr env then Some SrRecognizer else None.

(** What a call into a library did: it returned, or raised an exception
    with the given message. *)
Inductive Outcome : Type := Returns | Raises (e : string).

(** The [disabled] attribute of the six buttons. *)
Record Buttons : Type :=
  { record_disabled : bool; stop_disabled : bool; speak_disabled : bool;
    save_disabled : bool; load_disabled : bool; new_disabled : bool }.

(** Callbacks handed to [Clock.schedule_once(_, 0)]; they run on the UI
    thread, in the order in which they were scheduled. *)
Inductive Callback : Type :=
| CbStatus (text : string)
| CbUpdateButtons.

(** Program points of a thread running [_tts_worker]. *)
Inductive TtsPc : Type :=
| WHead                  (* about to test [tts_stop_event] *)
| WGet                   (* blocked in [tts_queue.get(timeout=0.2)] *)
| WGot (text : string)   (* holds the item just taken from the queue *)
| WPlay (text : string)  (* inside [say] / [runAndWait] *)
| WExit.                 (* the function has returned *)

(** Program points of a thread running [_listen_loop]. *)
Inductive ListenPc : Type :=
| LStart                 (* about to open the microphone *)
| LHead                  (* about to test [listen_stop_event] *)
| LListen                (* inside [listen] / [recognize_google] *)
| LExit.

(** What one capture-and-recognise cycle produced. *)
Inductive Heard : Type :=
| MicOpened
| WaitTimeout
| Recognized (text : string)
| UnknownValue
| RequestError (e : string)
| OsError (e : string)
| OtherError (e : string).

(** Calls on the speech queue and on the engine, as they happened. *)
Inductive Event : Type :=
| EvPut (text : string)               (* [tts_queue.put(text)] *)
| EvGet (tid : nat) (text : string)   (* [get] returned [text] *)
| EvSkip (tid : nat) (text : string)  (* the item was given up unplayed *)
| EvSay (tid : nat) (text : string)   (* playback call entered *)
| EvDone (tid : nat) (text : string). (* playback call left *)

Record App : Type :=
  { (* ASR *)
    is_listening : bool;
    listen_stop_event : bool;
    results_queue : list string;
    (* TTS *)
    tts_engine : option Engine;
    is_speaking : bool;
    tts_thread : option nat;
    tts_queue : list string;
    tts_stop_event : bool;
    (* UI *)
    text_area : string;
    status_label : string;
    buttons : Buttons;
    (* run time *)
    clock : list Callback;
    popups : list (string * string);
    tts_threads : list TtsPc;
    listen_threads : list ListenPc;
    files : list (Path * string);
    events : list Event   (* most recent first *) }.

Definition set_is_listening (v : bool) (s : App) : App :=
  {| is_listening := v; listen_stop_event := listen_stop_event s;
     results_queue := results_queue s; tts_engine := tts_engine s;
     is_speaking := is_speaking s; tts_thread := tts_thread s;
     tts_queue := tts_queue s; tts_stop_event := tts_stop_event s;
     text_area := text_area s; status_label := status_label s;
     buttons := buttons s; clock := clock s; popups := popups s;
     tts_threads := tts_threads s; listen_threads := listen_threads s;
     files := files s; events := events s |}.

Definition set_listen_stop_event (v : bool) (s : App) : App :=
  {| is_listening := is_listening s; listen_stop_event := v;
     results_queue := results_queue s; tts_engine := tts_engine s;
     is_speaking := is_speaking s; tts_thread := tts_thread s;
     tts_queue := tts_queue s; tts_stop_event := tts_stop_event s;
     text_area := text_area s; status_label := status_label s;
     buttons := buttons s; clock := clock s; popups := popups s;
     tts_threads := tts_threads s; listen_threads := listen_threads s;
     files := files s; events := events s |}.

Definition set_results_queue (v : list string) (s : App) : App :=
  {| is_listening := is_listening s;
     listen_stop_event := listen_stop_event s; results_queue := v;
     tts_engine := tts_engine s; is_speaking := is_speaking s;
     tts_thread := tts_thread s; tts_queue := tts_queue s;
     tts_stop_event := tts_stop_event s; text_area := text_area s;
     status_label := status_label s; buttons := buttons s;
     clock := clock s; popups := popups s; tts_threads := tts_threads s;
     listen_threads := listen_threads s; files := files s;
     events := events s |}.

Definition set_tts_engine (v : option Engine) (s : App) : App :=
  {| is_listening := is_listening s;
     listen_stop_event := listen_stop_event s;
     results_queue := results_queue s; tts_engine := v;
     is_speaking := is_speaking s; tts_thread := tts_thread s;
     tts_queue := tts_queue s; tts_stop_event := tts_stop_event s;
     text_area := text_area s; status_label := status_label s;
     buttons := buttons s; clock := clock s; popups := popups s;
     tts_threads := tts_threads s; listen_threads := listen_threads s;
     files := files s; events := events s |}.

Definition set_is_speaking (v : bool) (s : App) : App :=
  {| is_listening := is_listening s;
     listen_stop_event := listen_stop_event s;
     results_queue := results_queue s; tts_engine := tts_engine s;
     is_speaking := v; tts_thread := tts_thread s;
     tts_queue := tts_queue s; tts_stop_event := tts_stop_event s;
     text_area := text_area s; status_label := status_label s;
     buttons := buttons s; clock := clock s; popups := popups s;
     tts_threads := tts_threads s; listen_threads := listen_threads s;
     files := files s; events := events s |}.

Definition set_tts_thread (v : option nat) (s : App) : App :=
  {| is_listening := is_listening s;
     listen_stop_event := listen_stop_event s;
     results_queue := results_queue s; tts_engine := tts_engine s;
     is_speaking := is_speaking s; tts_thread := v;
     tts_queue := tts_queue s; tts_stop_event := tts_stop_event s;
     text_area := text_area s; status_label := status_label s;
     buttons := buttons s; clock := clock s; popups := popups s;
     tts_threads := tts_threads s; listen_threads := listen_threads s;
     files := files s; events := events s |}.

Definition set_tts_queue (v : list string) (s : App) : App :=
  {| is_listening := is_listening s;
     listen_stop_event := listen_stop_event s;
     results_queue := results_queue s; tts_engine := tts_engine s;
     is_speaking := is_speaking s; tts_thread := tts_thread s;
     tts_queue := v; tts_stop_event := tts_stop_event s;
     text_area := text_area s; status_label := status_label s;
     buttons := buttons s; clock := clock s; popups := popups s;
     tts_threads := tts_threads s; listen_threads := listen_threads s;
     files := files s; events := events s |}.

Definition set_tts_stop_event (v : bool) (s : App) : App :=
  {| is_listening := is_listening s;
     listen_stop_event := listen_stop_event s;
     results_queue := results_queue s; tts_engine := tts_engine s;
     is_speaking := is_speaking s; tts_thread := tts_thread s;
     tts_queue := tts_queue s; tts_stop_event := v;
     text_area := text_area s; status_label := status_label s;
     buttons := buttons s; clock := clock s; popups := popups s;
     tts_threads := tts_threads s; listen_threads := listen_threads s;
     files := files s; events := events s |}.

Definition set_text_area (v : string) (s : App) : App :=
  {| is_listening := is_listening s;
     listen_stop_event := listen_stop_event s;
     results_queue := results_queue s; tts_engine := tts_engine s;
     is_speaking := is_speaking s; tts_thread := tts_thread s;
     tts_queue := tts_queue s; tts_stop_event := tts_stop_event s;
     text_area := v; status_label := status_label s; buttons := buttons s;
     clock := clock s; popups := popups s; tts_threads := tts_threads s;
     listen_threads := listen_threads s; files := files s;
     events := events s |}.

Definition set_status_label (v : string) (s : App) : App :=
  {| is_listening := is_listening s;
     listen_stop_event := listen_stop_event s;
     results_queue := results_queue s; tts_engine := tts_engine s;
     is_speaking := is_speaking s; tts_thread := tts_thread s;
     tts_queue := tts_queue s; tts_stop_event := tts_stop_event s;
     text_area := text_area s; status_label := v; buttons := buttons s;
     clock := clock s; popups := popups s; tts_threads := tts_threads s;
     listen_threads := listen_threads s; files := files s;
     events := events s |}.

Definition set_buttons (v : Buttons) (s : App) : App :=
  {| is_listening := is_listening s;
     listen_stop_event := listen_stop_event s;
     results_queue := results_queue s; tts_engine := tts_engine s;
     is_speaking := is_speaking s; tts_thread := tts_thread s;
     tts_queue := tts_queue s; tts_stop_event := tts_stop_event s;
     text_area := text_area s; status_label := status_label s;
     buttons := v; clock := clock s; popups := popups s;
     tts_threads := tts_threads s; listen_threads := listen_threads s;
     files := files s; events := events s |}.

Definition set_clock (v : list Callback) (s : App) : App :=
  {| is_listening := is_listening s;
     listen_stop_event := listen_stop_event s;
     results_queue := results_queue s; tts_engine := tts_engine s;
     is_speaking := is_speaking s; tts_thread := tts_thread s;
     tts_queue := tts_queue s; tts_stop_event := tts_stop_event s;
     text_area := text_area s; status_label := status_label s;
     buttons := buttons s; clock := v; popups := popups s;
     tts_threads := tts_threads s; listen_threads := listen_threads s;
     files := files s; events := events s |}.

Definition set_popups (v : list (string * string)) (s : App) : App :=
  {| is_listening := is_listening s;
     listen_stop_event := listen_stop_event s;
     results_queue := results_queue s; tts_engine := tts_engine s;
     is_speaking := is_speaking s; tts_thread := tts_thread s;
     tts_queue := tts_queue s; tts_stop_event := tts_stop_event s;
     text_area := text_area s; status_label := status_label s;
     buttons := buttons s; clock := clock s; popups := v;
     tts_threads := tts_threads s; listen_threads := listen_threads s;
     files := files s; events := events s |}.

Definition set_tts_threads (v : list TtsPc) (s : App) : App :=
  {| is_listening := is_listening s;
     listen_stop_event := listen_stop_event s;
     results_queue := results_queue s; tts_engine := tts_engine s;
     is_speaking := is_speaking s; tts_thread := tts_thread s;
     tts_queue := tts_queue s; tts_stop_event := tts_stop_event s;
     text_area := text_area s; status_label := status_label s;
     buttons := buttons s; clock := clock s; popups := popups s;
     tts_threads := v; listen_threads := listen_threads s;
     files := files s; events := events s |}.

Definition set_listen_threads (v : list ListenPc) (s : App) : App :=
  {| is_listening := is_listening s;
     listen_stop_event := listen_stop_event s;
     results_queue := results_queue s; tts_engine := tts_engine s;
     is_speaking := is_speaking s; tts_thread := tts_thread s;
     tts_queue := tts_queue s; tts_stop_event := tts_stop_event s;
     text_area := text_area s; status_label := status_label s;
     buttons := buttons s; clock := clock s; popups := popups s;
     tts_threads := tts_threads s; listen_threads := v; files := files s;
     events := events s |}.

Definition set_files (v : list (Path * string)) (s : App) : App :=
  {| is_listening := is_listening s;
     listen_stop_event := listen_stop_event s;
     results_queue := results_queue s; tts_engine := tts_engine s;
     is_speaking := is_speaking s; tts_thread := tts_thread s;
     tts_queue := tts_queue s; tts_stop_event := tts_stop_event s;
     text_area := text_area s; status_label := status_label s;
     buttons := buttons s; clock := clock s; popups := popups s;
     tts_threads := tts_threads s; listen_threads := listen_threads s;
     files := v; events := events s |}.

Definition set_events (v : list Event) (s : App) : App :=
  {| is_listening := is_listening s;
     listen_stop_event := listen_stop_event s;
     results_queue := results_queue s; tts_engine := tts_engine s;
     is_speaking := is_speaking s; tts_thread := tts_thread s;
     tts_queue := tts_queue s; tts_stop_event := tts_stop_event s;
     text_area := text_area s; status_label := status_label s;
     buttons := buttons s; clock := clock s; popups := popups s;
     tts_threads := tts_threads s; listen_threads := listen_threads s;
     files := files s; events := v |}.


(** *** Internals *)

(** [_set_status]: the label text is changed by a scheduled callback. *)
Definition _set_status (text : string) (s : App) : App :=
  set_clock (clock s ++ [CbStatus text]) s.

(** [Clock.schedule_once(lambda *_: self._update_buttons(), 0)] *)
Definition schedule_update_buttons (s : App) : App :=
  set_clock (clock s ++ [CbUpdateButtons]) s.

Definition _error_popup (title msg : string) (s : App) : App :=
  set_popups (popups s ++ [(title, msg)]) s.

(** [queue.Queue.empty] *)
Definition empty (q : list string) : bool :=
  match q with
  | [] => true
  | _ :: _ => false
  end.

Definition _update_buttons (s : App) : App :=
  let speaking_or_queued := is_speaking s || negb (empty (tts_queue s)) in
  set_buttons
    {| record_disabled := is_listening s;
       speak_disabled := is_listening s;
       stop_disabled := negb (is_listening s || speaking_or_queued);
       save_disabled := false;
       load_disabled := false;
       new_disabled := false |} s.

(** The loop of [_process_results_queue]: [get_nowait] until the queue is
    empty, appending to the text of the text area. *)
Fixpoint drain_results (q : list string) (text : string) : string :=
  match q with
  | [] => text
  | chunk :: q' =>
      if truthy chunk
      then
        let chunk := if negb (endswith chunk " ") then chunk +:+ " " else chunk in
        drain_results q' (text +:+ chunk)
      else drain_results q' text
  end.

Definition _process_results_queue (s : App) : App :=
  let s := set_text_area (drain_results (results_queue s) (text_area s)) s in
  set_results_queue [] s.

Definition _clear_tts_queue (s : App) : App := set_tts_queue [] s.

(** *** Button handlers *)

Definition on_record (env : Env) (s : App) : App :=
  if is_listening s then s
  else if negb (bool_decide (is_Some (recognizer env))) || negb (sr env) then
    _error_popup "Missing Dependency"
      "speech_recognition is not available. Please install it." s
  else
    let s := set_is_listening true s in
    let s := set_listen_stop_event false s in
    let s := _set_status "Listening..." s in
    let s := _update_buttons s in
    set_listen_threads (listen_threads s ++ [LStart]) s.

Definition on_stop_button (s : App) : App :=
  let s :=
    if is_listening s then
      let s := set_listen_stop_event true s in
      _set_status "Stopping listening..." s
    else s in
  let speaking_or_queued := is_speaking s || negb (empty (tts_queue s)) in
  let s :=
    if speaking_or_queued && bool_decide (is_Some (tts_engine s)) then
      let s := set_tts_stop_event true s in
      let s := _clear_tts_queue s in
      (* [self.tts_engine.stop()], any exception swallowed *)
      let s := set_tts_engine None s in
      let s := set_tts_thread None s in
      let s := set_is_speaking false s in
      _set_status "Stopped." s
    else s in
  let s :=
    if negb (is_listening s) && negb speaking_or_queued then
      _set_status "Nothing to stop." s
    else s in
  _update_buttons s.

(** [Thread.is_alive] for a started thread. *)
Definition is_alive (pc : TtsPc) : bool :=
  match pc with
  | WExit => false
  | _ => true
  end.

(** [self.tts_thread and self.tts_thread.is_alive()] *)
Definition tts_thread_alive (s : App) : bool :=
  match tts_thread s with
  | None => false
  | Some tid =>
      match tts_threads s !! tid with
      | Some pc => is_alive pc
      | None => false
      end
  end.

(** [init] is what [pyttsx3.init()] does if the handler calls it. *)
Definition on_speak (env : Env) (init : Outcome) (s : App) : App :=
  if negb (pyttsx3 env) then
    _error_popup "Missing Dependency"
      "pyttsx3 is not available. Please install it." s
  else
    let engine_ready :=
      match tts_engine s, init with
      | Some _, _ => inl s
      | None, Returns => inl (set_tts_engine (Some Pyttsx3Engine) s)
      | None, Raises e => inr e
      end in
    match engine_ready with
    | inr e => _error_popup "TTS Error" ("Engine init failed: " +:+ e) s
    | inl s =>
        let text := strip (text_area s) in
        if negb (truthy text) then _set_status "Nothing to speak." s
        else
          let s := set_tts_queue (tts_queue s ++ [text]) s in
          let s := set_events (EvPut text :: events s) s in
          let s := _set_status "Queued for speaking..." s in
          let s :=
            if negb (tts_thread_alive s) then
              let s := set_tts_stop_event false s in
              let s := set_tts_thread (Some (length (tts_threads s))) s in
              set_tts_threads (tts_threads s ++ [WHead]) s
            else s in
          _update_buttons s
    end.

Definition on_new (s : App) : App :=
  let s := set_text_area "" s in
  _set_status "Cleared." s.

(** [datetime.now()]; the fields are within the ranges [datetime]
    guarantees (four-digit year, two-digit rest). *)
Record DateTime : Type :=
  { year : nat; month : nat; day : nat;
    hour : nat; minute : nat; second : nat }.

Definition digit (n : nat) : ascii := ascii_of_nat (48 + n mod 10).

(** The last [w] decimal digits of [n], zero-padded. *)
Fixpoint zpad (w n : nat) : string :=
  match w with
  | 0 => ""
  | S w' => zpad w' (n / 10) +:+ String (digit n) ""
  end.

(** [now.strftime('%Y%m%d_%H%M%S')] *)
Definition strftime (now : DateTime) : string :=
  zpad 4 (year now) +:+ zpad 2 (month now) +:+ zpad 2 (day now) +:+ "_"
  +:+ zpad 2 (hour now) +:+ zpad 2 (minute now) +:+ zpad 2 (second now).

(** [default_name] of [on_save] *)
Definition default_name (now : DateTime) : string :=
  "note_" +:+ strftime now +:+ ".txt".

(** The name [do_save] settles on for the text typed in the dialog. *)
Definition save_name (entered default_name : string) : string :=
  let name := or_else (strip entered) default_name in
  if negb (endswith name ".txt") then name +:+ ".txt" else name.

Definition save_path (env : Env) (entered default_name : string) : Path :=
  joinpath (notes_dir env) (save_name entered default_name).

(** [do_save] of [_save_dialog]; [write] is what [path.write_text] does. *)
Definition do_save (env : Env) (default_name entered : string)
    (write : Outcome) (s : App) : App :=
  let path := save_path env entered default_name in
  match write with
  | Returns =>
      let s := set_files ((path, text_area s) :: files s) s in
      _set_status ("Saved to " +:+ render path) s
  | Raises e => _error_popup "Save Error" e s
  end.

(** [on_save] followed by the Save button of the dialog it opens. *)
Definition on_save (env : Env) (now : DateTime) (entered : string)
    (write : Outcome) (s : App) : App :=
  do_save env (default_name now) entered write s.

(** *** The Clock *)

Definition run_callback (cb : Callback) (s : App) : App :=
  match cb with
  | CbStatus text => set_status_label text s
  | CbUpdateButtons => _update_buttons s
  end.

(** One frame: the scheduled callbacks run in order. *)
Definition frame (s : App) : App :=
  fold_left (fun s cb => run_callback cb s) (clock s) (set_clock [] s).

(** The status the label shows once the pending callbacks have run. *)
Definition reported_status (s : App) : string := status_label (frame s).

(** *** The TTS worker *)

Definition set_tts_pc (tid : nat) (pc : TtsPc) (s : App) : App :=
  set_tts_threads (<[tid := pc]> (tts_threads s)) s.

Definition log (e : Event) (s : App) : App :=
  set_events (e :: events s) s.

(** One step of thread [tid] running [_tts_worker]; [o] is what the library
    call made in this step does ([pyttsx3.init] at [WGot], [say] and
    [runAndWait] at [WPlay]).  [None] when there is no such running
    thread. *)
Definition tts_step (env : Env) (tid : nat) (o : Outcome) (s : App)
    : option App :=
  match tts_threads s !! tid with
  | None | Some WExit => None
  | Some WHead =>
      if negb (tts_stop_event s) then Some (set_tts_pc tid WGet s)
      else
        (* Stopped externally *)
        let s := set_is_speaking false s in
        let s := _set_status "Ready" s in
        let s := schedule_update_buttons s in
        Some (set_tts_pc tid WExit s)
  | Some WGet =>
      match tts_queue s with
      | [] =>
          (* queue.Empty *)
          let s :=
            if is_speaking s then
              let s := set_is_speaking false s in
              let s := _set_status "Ready" s in
              schedule_update_buttons s
            else s in
          Some (set_tts_pc tid WHead s)
      | text :: rest =>
          let s := set_tts_queue rest s in
          let s := log (EvGet tid text) s in
          Some (set_tts_pc tid (WGot text) s)
      end
  | Some (WGot text) =>
      if negb (truthy text) then
        Some (set_tts_pc tid WHead (log (EvSkip tid text) s))
      else
        let engine_ready :=
          if bool_decide (tts_engine s = None) && pyttsx3 env then
            match o with
            | Returns => inl (set_tts_engine (Some Pyttsx3Engine) s)
            | Raises e =>
                inr (_error_popup "TTS Error" ("Engine init failed: " +:+ e) s)
            end
          else inl s in
        match engine_ready with
        | inr s => Some (set_tts_pc tid WHead (log (EvSkip tid text) s))
        | inl s =>
            if negb (bool_decide (is_Some (tts_engine s))) then
              Some (set_tts_pc tid WHead (log (EvSkip tid text) s))
            else
              let s := set_is_speaking true s in
              let s := _set_status "Speaking..." s in
              let s := schedule_update_buttons s in
              let s := log (EvSay tid text) s in
              Some (set_tts_pc tid (WPlay text) s)
        end
  | Some (WPlay text) =>
      let s :=
        match o with
        | Returns => s
        | Raises e =>
            let s := _error_popup "TTS Error" e s in
            let s := _set_status "TTS error." s in
            set_tts_engine None s
        end in
      let s := log (EvDone tid text) s in
      Some (set_tts_pc tid WHead s)
  end.

(** *** The capture worker *)

Definition set_listen_pc (tid : nat) (pc : ListenPc) (s : App) : App :=
  set_listen_threads (<[tid := pc]> (listen_threads s)) s.

(** The [finally] clause of [_listen_loop]. *)
Definition listen_finally (tid : nat) (s : App) : App :=
  let s := set_is_listening false s in
  let s := set_listen_stop_event false s in
  let s := _set_status "Ready" s in
  let s := schedule_update_buttons s in
  set_listen_pc tid LExit s.

(** The two outer [except] clauses of [_listen_loop]. *)
Definition listen_failed (tid : nat) (h : Heard) (s : App) : option App :=
  match h with
  | OsError e =>
      let s := _error_popup "Microphone Error" e s in
      let s := _set_status "Microphone error." s in
      Some (listen_finally tid s)
  | OtherError e =>
      let s := _error_popup "Listening Error" e s in
      let s := _set_status "Listening error." s in
      Some (listen_finally tid s)
  | _ => None
  end.

(** One step of thread [tid] running [_listen_loop]; [h] is what the
    microphone and the recogniser produce in this step. *)
Definition listen_step (tid : nat) (h : Heard) (s : App) : option App :=
  match listen_threads s !! tid with
  | None | Some LExit => None
  | Some LStart =>
      match h with
      | MicOpened => Some (set_listen_pc tid LHead s)
      | _ => listen_failed tid h s
      end
  | Some LHead =>
      if negb (listen_stop_event s) then Some (set_listen_pc tid LListen s)
      else Some (listen_finally tid s)
  | Some LListen =>
      match h with
      | MicOpened => None
      | WaitTimeout => Some (set_listen_pc tid LHead s)
      | Recognized text =>
          let s := set_results_queue (results_queue s ++ [text]) s in
          let s := _set_status "Recognized." s in
          Some (set_listen_pc tid LHead s)
      | UnknownValue =>
          let s := _set_status "Could not understand audio." s in
          Some (set_listen_pc tid LHead s)
      | RequestError e =>
          let s := _set_status ("ASR service error: " +:+ e) s in
          Some (set_listen_pc tid LHead s)
      | _ => listen_failed tid h s
      end
  end.

(** *** The whole program *)

(** The state [build] leaves behind. *)
Definition build (env : Env) : App :=
  _update_buttons
    {| is_listening := false;
       listen_stop_event := false;
       results_queue := [];
       tts_engine := if pyttsx3 env then Some Pyttsx3Engine else None;
       is_speaking := false;
       tts_thread := None;
       tts_queue := [];
       tts_stop_event := false;
       text_area := "";
       status_label := "Ready";
       buttons :=
         {| record_disabled := false; stop_disabled := false;
            speak_disabled := false; save_disabled := false;
            load_disabled := false; new_disabled := false |};
       clock := [];
       popups := [];
       tts_threads := [];
       listen_threads := [];
       files := [];
       events := [] |}.

(** What can happen next: the user presses an enabled button or edits the
    text, the poller ticks, the Clock runs a frame, or one of the
    background threads takes a step. *)
Inductive Action : Type :=
| PressRecord
| PressStop
| PressSpeak (init : Outcome)
| PressNew
| PressSave (now : DateTime) (entered : string) (write : Outcome)
| Edit (text : string)
| Tick
| Frame
| TtsStep (tid : nat) (o : Outcome)
| ListenStep (tid : nat) (h : Heard).

(** A disabled button does not dispatch [on_release]. *)
Definition pressed (disabled : bool) (s : App) : option App :=
  if disabled then None else Some s.

Definition step (env : Env) (a : Action) (s : App) : option App :=
  match a with
  | PressRecord => pressed (record_disabled (buttons s)) (on_record env s)
  | PressStop => pressed (stop_disabled (buttons s)) (on_stop_button s)
  | PressSpeak init => pressed (speak_disabled (buttons s)) (on_speak env init s)
  | PressNew => pressed (new_disabled (buttons s)) (on_new s)
  | PressSave now entered write =>
      pressed (save_disabled (buttons s)) (on_save env now entered write s)
  | Edit text => Some (set_text_area text s)
  | Tick => Some (_process_results_queue s)
  | Frame => Some (frame s)
  | TtsStep tid o => tts_step env tid o s
  | ListenStep tid h => listen_step tid h s
  end.

Fixpoint run (env : Env) (acts : list Action) (s : App) : option App :=
  match acts with
  | [] => Some s
  | a :: acts' =>
      match step env a s with
      | Some s' => run env acts' s'
      | None => None
      end
  end.

(** *** Reading the history *)

(** Texts handed to [tts_queue.put], oldest first. *)
Fixpoint enqueued (evs : list Event) : list string :=
  match evs with
  | [] => []
  | EvPut text :: evs' => enqueued evs' ++ [text]
  | _ :: evs' => enqueued evs'
  end.

(** Texts for which the playback call was made, oldest first. *)
Fixpoint played (evs : list Event) : list string :=
  match evs with
  | [] => []
  | EvSay _ text :: evs' => played evs' ++ [text]
  | _ :: evs' => played evs'
  end.

(** Texts the workers are done deciding about (played or given up),
    oldest first. *)
Fixpoint handled (evs : list Event) : list string :=
  match evs with
  | [] => []
  | EvSay _ text :: evs' | EvSkip _ text :: evs' => handled evs' ++ [text]
  | _ :: evs' => handled evs'
  end.

Definition is_skip (e : Event) : bool :=
  match e with
  | EvSkip _ _ => true
  | _ => false
  end.

(** The playback call in progress after the history [evs], if the
    playback calls of [evs] never overlapped; [None] if two of them did
    (or one was left that had not been entered). *)
Fixpoint in_flight (evs : list Event) : option (option (nat * string)) :=
  match evs with
  | [] => Some None
  | e :: evs' =>
      match in_flight evs', e with
      | None, _ => None
      | Some None, EvSay tid text => Some (Some (tid, text))
      | Some (Some _), EvSay _ _ => None
      | Some (Some cur), EvDone tid text =>
          if bool_decide (cur = (tid, text)) then Some None else None
      | Some None, EvDone _ _ => None
      | Some cur, _ => Some cur
      end
  end.

(** No two playback calls of the history overlap in time. *)
Definition serial (evs : list Event) : Prop := is_Some (in_flight evs).

(** Items a worker has taken from the queue and not yet decided about. *)
Definition held (pc : TtsPc) : list string :=
  match pc with
  | WGot text => [text]
  | _ => []
  end.

Definition live_tts_workers (s : App) : nat :=
  length (filter (fun pc => Is_true (is_alive pc)) (tts_threads s)).

Definition is_stop (a : Action) : bool :=
  match a with
  | PressStop => true
  | _ => false
  end.

End VoiceNotes.


(** ** The remaining handlers *)

Module Shell.
Import PyStr PyPath VoiceNotes.

(** What [path.read_text] does. *)
Inductive ReadOutcome : Type :=
| ReadReturns (content : string)
| ReadRaises (e : string).

(** [load_selected] of [_open_file_dialog]; [selection] is
    [chooser.selection] and [read] is what reading its first entry does. *)
Definition load_selected (selection : list string) (read : ReadOutcome)
    (s : App) : App :=
  match selection with
  | [] => s
  | first :: _ =>
      let path := parse first in
      match read with
      | ReadReturns content =>
          let s := set_text_area content s in
          _set_status ("Loaded: " +:+ render path) s
      | ReadRaises e => _error_popup "Load Error" e s
      end
  end.

(** [on_load]; [dialog] is what [_open_file_dialog] does. *)
Definition on_load (dialog : Outcome) (s : App) : App :=
  match dialog with
  | Returns => s
  | Raises e =>
      let s := _error_popup "Load Error" e s in
      _set_status "Load failed." s
  end.

(** [on_stop], which Kivy calls when the application closes. *)
Definition on_stop (s : App) : App :=
  let s := if is_listening s then set_listen_stop_event true s else s in
  if bool_decide (is_Some (tts_engine s)) then
    (* [self.tts_engine.stop()], any exception swallowed *)
    set_tts_stop_event true s
  else s.



(** The part of the state the capture side works on. *)
Definition listen_view (s : App) : bool * list ListenPc :=
  (is_listening s, listen_threads s).


(** Concrete states used in the examples: the program as built with both
    optional imports present, then recording, then with the capture thread
    at the head of its loop and at its blocking call. *)
Definition env_full : Env :=
  {| sr := true; pyttsx3 := true; notes_dir := parse "/app/notes" |}.

Definition env_bare : Env :=
  {| sr := false; pyttsx3 := false; notes_dir := parse "/app/notes" |}.

Definition recording : App := on_record env_full (build env_full).

(** Speak was pressed with "memo" in the text area, then Record. *)
Definition recording_and_queued : App :=
  on_record env_full
    (on_speak env_full Returns (set_text_area "memo" (build env_full))).

Definition at_loop_head : App :=
  match listen_step 0 MicOpened recording with
  | Some s => s
  | None => recording
  end.

Definition in_listen : App :=
  match listen_step 0 WaitTimeout at_loop_head with
  | Some s => s
  | None => at_loop_head
  end.


(** One pass of worker [tid] through its loop body for a queued item, every
    library call returning: stop test, [get], engine check, playback. *)
Definition play_one (tid : nat) : list Action :=
  [TtsStep tid Returns; TtsStep tid Returns;
   TtsStep tid Returns; TtsStep tid Returns].

Definition play_many (tid n : nat) : list Action :=
  concat (replicate n (play_one tid)).

(** One pass of capture thread [tid] through its loop body in which the
    recogniser returns [text]. *)
Definition hear_one (tid : nat) (text : string) : list Action :=
  [ListenStep tid WaitTimeout; ListenStep tid (Recognized text)].

Definition hear_many (tid : nat) (texts : list string) : list Action :=
  concat (map (hear_one tid) texts).

(** The item a TTS worker holds or is playing. *)
Definition in_hand_of (pc : TtsPc) : list string :=
  match pc with
  | WGot text | WPlay text => [text]
  | _ => []
  end.

(** Every queued utterance, and every utterance a worker holds or plays, is
    a non-empty string. *)
Definition utterances_nonempty (s : App) : Prop :=
  Forall (fun text => truthy text = true) (tts_queue s) /\
  Forall (fun pc => Forall (fun text => truthy text = true) (in_hand_of pc))
    (tts_threads s).

(** Two utterances are queued and the worker is at the head of its loop. *)
Definition two_queued : App :=
  on_speak env_full Returns
    (set_text_area " second "
       (on_speak env_full Returns (set_text_area "first" (build env_full)))).

(** Speak, then the worker takes the item. *)
Definition item_held : App :=
  match run env_full
          [Edit "memo"; PressSpeak Returns; TtsStep 0 Returns; TtsStep 0 Returns]
          (build env_full) with
  | Some s => s
  | None => build env_full
  end.

(** Two utterances were enqueued and the worker has taken the first. *)
Definition first_held : App :=
  match run env_full [TtsStep 0 Returns; TtsStep 0 Returns] two_queued with
  | Some s => s
  | None => two_queued
  end.

(** The worker is inside the playback call for "memo". *)
Definition playing_memo : App :=
  match tts_step env_full 0 Returns item_held with
  | Some s => s
  | None => item_held
  end.



(** The text of the last status report among the callbacks [cbs], or [text]
    when there is none. *)
Fixpoint last_status (cbs : list Callback) (text : string) : string :=
  match cbs with
  | [] => text
  | CbStatus t :: cbs' => last_status cbs' t
  | CbUpdateButtons :: cbs' => last_status cbs' text
  end.

(** Whether a button update is among the callbacks [cbs]. *)
Definition has_update (cbs : list Callback) : bool :=
  existsb (fun cb => match cb with
                     | CbUpdateButtons => true
                     | CbStatus _ => false
                     end) cbs.

End Shell.

(** ** Definitions that follow the wording of the specification *)

Module Spec.
Import PyStr PyPath VoiceNotes.

(** "Normalizes each chunk to end with exactly one trailing space": the
    chunk without the spaces at its end, followed by one space. *)
Fixpoint without_trailing_spaces (s : string) : string :=
  match s with
  | EmptyString => EmptyString
  | String c s' =>
      match without_trailing_spaces s' with
      | EmptyString =>
          if Ascii.eqb c " " then EmptyString else String c EmptyString
      | r => String c r
      end
  end.

Definition one_trailing_space (chunk : string) : string :=
  without_trailing_spaces chunk +:+ " ".

(** What one poller tick adds to the document according to the
    specification. *)
Definition tick_gain (chunks : list string) : string :=
  String.concat "" (map one_trailing_space chunks).

(** What the code adds for one non-empty chunk: the chunk, with a space
    after it unless it has one at its end already. *)
Definition space_terminated (chunk : string) : string :=
  if endswith chunk " " then chunk else chunk +:+ " ".

(** CaptureState / SynthesisState of the specification. *)
Definition Listening (s : App) : Prop := is_listening s = true.
Definition Speaking (s : App) : Prop := is_speaking s = true.
Definition Queued (s : App) : Prop := tts_queue s <> [].

End Spec.

(** ** Concrete inputs used in the examples *)

Module Demo.
Import PyStr PyPath VoiceNotes.

(** Both optional imports succeeded; the program lives in [/app]. *)
Definition env : Env :=
  {| sr := true; pyttsx3 := true; notes_dir := parse "/app/notes" |}.

(** [pyttsx3] could not be imported. *)
Definition env_no_tts : Env :=
  {| sr := true; pyttsx3 := false; notes_dir := parse "/app/notes" |}.

(** [speech_recognition] could not be imported. *)
Definition env_no_asr : Env :=
  {| sr := false; pyttsx3 := true; notes_dir := parse "/app/notes" |}.

Definition with_chunks (chunks : list string) : App :=
  set_results_queue chunks (build env).

(** The text area holds [text] and Speak has been pressed once. *)
Definition spoken (text : string) : App :=
  on_speak env Returns (set_text_area text (build env)).

(** Two utterances are enqueued; the worker plays the first and the engine
    fails during playback. *)
Definition playback_fails : list Action :=
  [Edit "a"; PressSpeak Returns; Edit "b"; PressSpeak Returns;
   TtsStep 0 Returns; TtsStep 0 Returns; TtsStep 0 Returns;
   TtsStep 0 (Raises "boom")].

(** Speak, Stop while the first worker is inside the playback call, Speak
    again; then the first worker returns from playback and passes its stop
    test, and both workers take an item and enter the playback call. *)
Definition stop_then_speak : list Action :=
  [Edit "a"; PressSpeak Returns;
   TtsStep 0 Returns; TtsStep 0 Returns; TtsStep 0 Returns;
   PressStop; PressSpeak Returns;
   TtsStep 0 Returns; TtsStep 0 Returns].

Definition two_playbacks : list Action :=
  stop_then_speak ++
  [Edit "b"; PressSpeak Returns;
   TtsStep 0 Returns; TtsStep 1 Returns; TtsStep 1 Returns;
   TtsStep 0 Returns; TtsStep 1 Returns].

(** "x" is enqueued and the first worker enters its playback; Stop; "a" and
    "b" are enqueued, which starts a second worker; the first worker returns
    from playback, passes its stop test and takes "a"; the second takes "b"
    and plays it to the end; then the first plays "a". *)
Definition out_of_order : list Action :=
  [Edit "x"; PressSpeak Returns;
   TtsStep 0 Returns; TtsStep 0 Returns; TtsStep 0 Returns;
   PressStop;
   Edit "a"; PressSpeak Returns; Edit "b"; PressSpeak Returns;
   TtsStep 0 Returns; TtsStep 0 Returns; TtsStep 0 Returns;
   TtsStep 1 Returns; TtsStep 1 Returns; TtsStep 1 Returns; TtsStep 1 Returns;
   TtsStep 0 Returns; TtsStep 0 Returns].

(** "Hello" then "World" are enqueued while idle and the worker runs until
    its queue wait times out. *)
Definition hello_world : list Action :=
  [Edit "Hello"; PressSpeak Returns; Edit "World"; PressSpeak Returns;
   TtsStep 0 Returns; TtsStep 0 Returns; TtsStep 0 Returns; TtsStep 0 Returns;
   TtsStep 0 Returns; TtsStep 0 Returns; TtsStep 0 Returns; TtsStep 0 Returns;
   TtsStep 0 Returns; TtsStep 0 Returns; Frame].

Definition noon : DateTime :=
  {| year := 2025; month := 3; day := 9;
     hour := 12; minute := 0; second := 7 |}.

End Demo.

(** ** Invariants of the runs in which Stop is never pressed *)

Module Invariants.
Import PyStr PyPath VoiceNotes.

(** The part of the state the speech side works on. *)
Definition tts_view (s : App)
    : bool * list TtsPc * option nat * list Event * list string :=
  (tts_stop_event s, tts_threads s, tts_thread s, events s, tts_queue s).

(** The playback call a worker at [pc] is inside of. *)
Definition playing (tid : nat) (pc : TtsPc) : option (nat * string) :=
  match pc with
  | WPlay text => Some (tid, text)
  | _ => None
  end.

(** The stop event is clear; there is no worker yet, or one running worker
    which [tts_thread] refers to; the history has no overlapping playback
    and the playback in flight is the one the worker is inside of; what was
    enqueued is what has been decided about, then what the worker holds,
    then what is still queued. *)
Definition single_worker (s : App) : Prop :=
  tts_stop_event s = false /\
  ((tts_threads s = [] /\ tts_thread s = None /\
    in_flight (events s) = Some None /\
    enqueued (events s) = handled (events s) ++ tts_queue s)
   \/
   (exists pc,
      tts_threads s = [pc] /\ tts_thread s = Some 0 /\ is_alive pc = true /\
      in_flight (events s) = Some (playing 0 pc) /\
      enqueued (events s) = handled (events s) ++ held pc ++ tts_queue s)).

Definition no_stop (acts : list Action) : Prop :=
  existsb is_stop acts = false.

Definition no_skip (evs : list Event) : Prop :=
  existsb is_skip evs = false.

End Invariants.

(** ** Strings *)

Import PyStr PyPath VoiceNotes Shell Spec Invariants.

Section StringFacts.

Lemma app_cons (c : ascii) (s t : string) :
  String c s +:+ t = String c (s +:+ t).
Proof. reflexivity. Qed.

Lemma app_empty_l (s : string) : "" +:+ s = s.
Proof. reflexivity. Qed.

Lemma app_empty_r (s : string) : s +:+ "" = s.
Proof.
  induction s as [|c s IH]; [reflexivity|]. now rewrite app_cons, IH.
Qed.

Lemma app_assoc_str (a b c : string) : (a +:+ b) +:+ c = a +:+ (b +:+ c).
Proof.
  induction a as [|x a IH]; [reflexivity|]. now rewrite !app_cons, IH.
Qed.

Lemma endswith_refl (s : string) : endswith s s = true.
Proof. destruct s; simpl; rewrite ?Ascii.eqb_refl, ?String.eqb_refl; reflexivity. Qed.

Lemma endswith_app (s suf : string) : endswith (s +:+ suf) suf = true.
Proof.
  induction s as [|c s IH].
  - apply endswith_refl.
  - rewrite app_cons. cbn [endswith]. rewrite IH. apply orb_true_r.
Qed.

Lemma endswith_cons (c : ascii) (s suf : string) :
  endswith s suf = true -> endswith (String c s) suf = true.
Proof. intros H. cbn [endswith]. rewrite H. apply orb_true_r. Qed.

Lemma endswith_empty_l (suf : string) :
  endswith "" suf = true -> suf = "".
Proof.
  cbn [endswith]. rewrite orb_false_r. intros H.
  symmetry. now apply String.eqb_eq.
Qed.

Lemma truthy_false (s : string) : truthy s = false <-> s = "".
Proof. destruct s; simpl; split; congruence. Qed.

Lemma truthy_app_l (a b : string) : truthy a = true -> truthy (a +:+ b) = true.
Proof. destruct a; [discriminate | reflexivity]. Qed.

Lemma lstrip_blank (s : string) : blank s = true -> lstrip s = "".
Proof.
  unfold blank. induction s as [|c s IH]; simpl; [reflexivity|].
  intros [Hc Hs]%andb_true_iff. rewrite Hc. auto.
Qed.

Lemma lstrip_not_blank (s : string) : blank s = false -> truthy (lstrip s) = true.
Proof.
  unfold blank. induction s as [|c s IH]; simpl; [discriminate|].
  destruct (isspace c) eqn:Hc; simpl; auto.
Qed.

Lemma lstrip_head (s : string) :
  match lstrip s with
  | EmptyString => True
  | String c _ => isspace c = false
  end.
Proof.
  induction s as [|c s IH]; simpl; [exact I|].
  destruct (isspace c) eqn:Hc; [exact IH | exact Hc].
Qed.

Lemma rstrip_empty_blank (s : string) : rstrip s = "" -> blank s = true.
Proof.
  unfold blank. induction s as [|c s IH]; simpl; [reflexivity|].
  destruct (rstrip s) eqn:Hr; [|discriminate].
  destruct (isspace c); [auto | discriminate].
Qed.

(** [strip] returns the empty string exactly on the blank strings. *)
Lemma strip_blank (s : string) : strip s = "" <-> blank s = true.
Proof.
  unfold strip. split.
  - intros H. apply rstrip_empty_blank in H.
    destruct (blank s) eqn:Hb; [reflexivity|].
    pose proof (lstrip_head s) as Hh. apply lstrip_not_blank in Hb.
    destruct (lstrip s) as [|c r]; [discriminate|].
    unfold blank in H. simpl in H. rewrite Hh in H. discriminate.
  - intros H. now rewrite (lstrip_blank _ H).
Qed.

Lemma concat_empty_app (l1 l2 : list string) :
  String.concat "" (l1 ++ l2) = String.concat "" l1 +:+ String.concat "" l2.
Proof.
  induction l1 as [|a l1 IH]; [reflexivity|].
  destruct l1 as [|b l1].
  - destruct l2; [symmetry; apply app_empty_r | reflexivity].
  - change (String.concat "" ((a :: b :: l1) ++ l2))
      with (a +:+ "" +:+ String.concat "" ((b :: l1) ++ l2)).
    rewrite IH.
    change (String.concat "" (a :: b :: l1))
      with (a +:+ "" +:+ String.concat "" (b :: l1)).
    now rewrite !app_empty_l, app_assoc_str.
Qed.

Lemma concat_empty_cons (a : string) (l : list string) :
  String.concat "" (a :: l) = a +:+ String.concat "" l.
Proof. apply (concat_empty_app [a] l). Qed.

End StringFacts.

(** ** The poller *)

Section Poller.

Lemma drain_results_gain (q : list string) (text : string) :
  drain_results q text =
  text +:+ String.concat ""
             (map space_terminated (filter (fun c => Is_true (truthy c)) q)).
Proof.
  revert text. induction q as [|chunk q IH]; intros text.
  - simpl. now rewrite app_empty_r.
  - cbn [drain_results]. destruct (truthy chunk) eqn:Ht.
    + rewrite IH. rewrite filter_cons_True by (now rewrite Ht).
      cbn [map]. rewrite concat_empty_cons, app_assoc_str.
      unfold space_terminated. now destruct (endswith chunk " ").
    + rewrite IH. rewrite filter_cons_False by (now rewrite Ht).
      reflexivity.
Qed.

Lemma space_terminated_endswith (chunk : string) :
  endswith (space_terminated chunk) " " = true.
Proof.
  unfold space_terminated. destruct (endswith chunk " ") eqn:H; [exact H|].
  apply endswith_app.
Qed.

Lemma drain_results_app (q1 q2 : list string) (text : string) :
  drain_results (q1 ++ q2) text = drain_results q2 (drain_results q1 text).
Proof.
  revert text. induction q1 as [|c q1 IH]; intros text; [reflexivity|].
  simpl. destruct (truthy c); apply IH.
Qed.

(** C4, as the code has it: one tick empties the transcript queue and
    appends, in arrival order, every non-empty chunk, followed by a space
    unless the chunk already ends with one (so every appended piece ends
    with a space, and spaces already at the end of a chunk are kept);
    empty chunks add nothing.  For the queue ["hello"; "world"] the
    document gains exactly "hello world ". *)
Theorem poller_tick_drains_in_order (s : App) :
  let s' := _process_results_queue s in
  results_queue s' = [] /\
  text_area s' =
    text_area s +:+
    String.concat ""
      (map space_terminated
         (filter (fun c => Is_true (truthy c)) (results_queue s))) /\
  Forall (fun piece => endswith piece " " = true)
    (map space_terminated
       (filter (fun c => Is_true (truthy c)) (results_queue s))) /\
  text_area (_process_results_queue (set_results_queue ["hello"; "world"] s))
    = text_area s +:+ "hello world ".
Proof.
  cbn zeta. split; [reflexivity|]. split; [apply drain_results_gain|]. split.
  - apply List.Forall_forall. intros piece Hin.
    apply in_map_iff in Hin. destruct Hin as (c & <- & _).
    apply space_terminated_endswith.
  - change (drain_results ["hello"; "world"] (text_area s)
            = text_area s +:+ "hello world ").
    rewrite drain_results_gain. reflexivity.
Qed.

(** C4 as stated fails: a chunk that ends with two spaces is appended as it
    is, not cut down to one trailing space. *)
Lemma poller_tick_keeps_extra_spaces :
  let s := Demo.with_chunks ["hi  "] in
  text_area (_process_results_queue s) = "hi  " /\
  tick_gain (results_queue s) = "hi " /\
  text_area (_process_results_queue s) <> text_area s +:+ tick_gain (results_queue s) /\
  trailing_spaces (text_area (_process_results_queue s)) = 2.
Proof. vm_compute. repeat split; congruence. Qed.

(** C10: an empty chunk taken from the transcript queue adds nothing to the
    document, not even a space, and the chunks before and after it in the
    same tick are processed as if it had not been there. *)
Theorem poller_discards_empty_chunk (s : App) (before after : list string) :
  results_queue s = before ++ "" :: after ->
  text_area (_process_results_queue s) =
    text_area (_process_results_queue (set_results_queue (before ++ after) s)) /\
  results_queue (_process_results_queue s) = [] /\
  drain_results [""] (text_area s) = text_area s.
Proof.
  intros Hq. unfold _process_results_queue. cbn. rewrite Hq.
  split; [|split; reflexivity].
  now rewrite !drain_results_app.
Qed.

Lemma poller_discards_empty_chunk_witness :
  let s := Demo.with_chunks ["a"; ""; "b"] in
  results_queue s = ["a"] ++ "" :: ["b"] /\
  text_area (_process_results_queue s) = "a b ".
Proof.
  cbn zeta. split; [reflexivity|].
  rewrite (proj1 (poller_discards_empty_chunk
                    (Demo.with_chunks ["a"; ""; "b"]) ["a"] ["b"] eq_refl)).
  reflexivity.
Defined.

End Poller.

(** ** Status reports and button enablement *)

Section StatusAndButtons.

Lemma fold_callbacks_app (cbs1 cbs2 : list Callback) (s : App) :
  fold_left (fun s cb => run_callback cb s) (cbs1 ++ cbs2) s =
  fold_left (fun s cb => run_callback cb s) cbs2
    (fold_left (fun s cb => run_callback cb s) cbs1 s).
Proof. apply fold_left_app. Qed.

(** The label shows the status scheduled last. *)
Lemma reported_status_last (s : App) (cbs : list Callback) (text : string) :
  clock s = cbs ++ [CbStatus text] -> reported_status s = text.
Proof.
  intros H. unfold reported_status, frame. rewrite H, fold_callbacks_app.
  reflexivity.
Qed.

(** A pending button update does not change what the label shows. *)
Lemma reported_status_last_update (s : App) (cbs : list Callback) (text : string) :
  clock s = cbs ++ [CbStatus text; CbUpdateButtons] -> reported_status s = text.
Proof.
  intros H. unfold reported_status, frame.
  change [CbStatus text; CbUpdateButtons]
    with ([CbStatus text] ++ [CbUpdateButtons]) in H.
  rewrite H, app_assoc, !fold_callbacks_app. reflexivity.
Qed.

(** C9: after [_update_buttons], Record and Speak are disabled exactly
    when listening, Stop is disabled exactly when the program is neither
    listening nor speaking and the utterance queue is empty, and Save, Load
    and New are enabled. *)
Theorem update_buttons_table (s : App) :
  let b := buttons (_update_buttons s) in
  (record_disabled b = true <-> Listening s) /\
  (speak_disabled b = true <-> Listening s) /\
  (stop_disabled b = true <-> ~ (Listening s \/ Speaking s \/ Queued s)) /\
  save_disabled b = false /\ load_disabled b = false /\ new_disabled b = false.
Proof.
  unfold Listening, Speaking, Queued. cbn.
  repeat split; try tauto.
  - intros H [Hl | [Hs | Hq]].
    + rewrite Hl in H. discriminate.
    + rewrite Hs, orb_true_r in H. discriminate.
    + destruct (tts_queue s); [congruence|].
      cbn in H. rewrite !orb_true_r in H. discriminate.
  - intros H. destruct (is_listening s); [tauto|].
    destruct (is_speaking s); [tauto|].
    destruct (tts_queue s); [reflexivity|].
    exfalso. apply H. right. right. discriminate.
Qed.

(** The button update touches nothing but the buttons. *)
Lemma update_buttons_only_buttons (s : App) :
  _update_buttons s = set_buttons (buttons (_update_buttons s)) s.
Proof. reflexivity. Qed.

End StatusAndButtons.

(** ** Record and Stop *)

Section RecordStop.

(** C6: while listening, [on_record] returns at once: the state it returns
    is the state it was given, so no thread is started and neither the
    flag, the stop event, the pending status reports nor the queues
    change. *)
Theorem record_while_listening_noop (env : Env) (s : App) :
  Listening s ->
  on_record env s = s /\
  listen_threads (on_record env s) = listen_threads s.
Proof.
  unfold Listening, on_record. intros ->. split; reflexivity.
Qed.

Lemma record_while_listening_noop_witness :
  let s := on_record Demo.env (build Demo.env) in
  Listening s /\ on_record Demo.env s = s /\ length (listen_threads s) = 1.
Proof.
  cbn zeta.
  split; [reflexivity|]. split; [|reflexivity].
  apply (record_while_listening_noop Demo.env
           (on_record Demo.env (build Demo.env)) eq_refl).
Defined.

(** C5: with nothing listening, nothing speaking and an empty utterance
    queue, [on_stop_button] reports "Nothing to stop." and, apart from
    that report and the recomputed buttons, returns the state it was
    given. *)
Theorem stop_when_idle (s : App) :
  ~ Listening s -> ~ Speaking s -> ~ Queued s ->
  let s' := on_stop_button s in
  s' = _update_buttons (_set_status "Nothing to stop." s) /\
  reported_status s' = "Nothing to stop." /\
  is_listening s' = is_listening s /\
  listen_stop_event s' = listen_stop_event s /\
  tts_stop_event s' = tts_stop_event s /\
  results_queue s' = results_queue s /\
  tts_queue s' = tts_queue s /\
  tts_engine s' = tts_engine s /\
  text_area s' = text_area s /\
  is_speaking s' = is_speaking s /\
  tts_thread s' = tts_thread s /\
  tts_threads s' = tts_threads s /\
  listen_threads s' = listen_threads s.
Proof.
  unfold Listening, Speaking, Queued. intros Hl Hs Hq.
  apply not_true_is_false in Hl, Hs.
  assert (Eq : tts_queue s = []).
  { destruct (tts_queue s); [reflexivity | exfalso; apply Hq; discriminate]. }
  cbn zeta.
  assert (E : on_stop_button s
              = _update_buttons (_set_status "Nothing to stop." s)).
  { unfold on_stop_button. rewrite Hl, Hs, Eq. cbn. rewrite Hl. reflexivity. }
  rewrite E. split; [reflexivity|]. split.
  - apply (reported_status_last _ (clock s)). reflexivity.
  - repeat split; reflexivity.
Qed.

Lemma stop_when_idle_witness :
  reported_status (on_stop_button (build Demo.env)) = "Nothing to stop.".
Proof.
  refine (proj1 (proj2 (stop_when_idle (build Demo.env) _ _ _)));
    unfold Listening, Speaking, Queued; cbn; congruence.
Defined.

(** X25: when the program is speaking or an utterance is queued, and the
    engine handle is present, [on_stop_button] empties the utterance queue,
    clears the speaking flag, drops the engine handle and the worker
    reference, sets the stop event and reports "Stopped.". *)
Theorem stop_while_speaking_or_queued (s : App) :
  Speaking s \/ Queued s ->
  tts_engine s <> None ->
  let s' := on_stop_button s in
  tts_queue s' = [] /\
  is_speaking s' = false /\
  tts_engine s' = None /\
  tts_thread s' = None /\
  tts_stop_event s' = true /\
  reported_status s' = "Stopped.".
Proof.
  unfold Speaking, Queued. intros Hsq He. cbn zeta.
  assert (Hb : is_speaking s || negb (empty (tts_queue s)) = true).
  { destruct Hsq as [-> | Hq]; [reflexivity|].
    destruct (tts_queue s); [congruence|]. apply orb_true_r. }
  destruct (tts_engine s) as [e|] eqn:Ee; [clear He | congruence].
  unfold on_stop_button.
  destruct (is_listening s) eqn:Hl; cbn; rewrite Hb, Ee; cbn;
    rewrite ?Hl, ?andb_false_r; cbn;
    (repeat split; try reflexivity).
  - apply (reported_status_last _
             (clock s ++ [CbStatus "Stopping listening..."])). reflexivity.
  - apply (reported_status_last _ (clock s)). reflexivity.
Qed.

End RecordStop.

Section StopGuard.

Lemma stop_while_speaking_or_queued_witness :
  Queued (Demo.spoken "a") /\
  tts_queue (on_stop_button (Demo.spoken "a")) = [] /\
  reported_status (on_stop_button (Demo.spoken "a")) = "Stopped.".
Proof.
  assert (Hq : Queued (Demo.spoken "a")) by (vm_compute; discriminate).
  assert (He : tts_engine (Demo.spoken "a") <> None) by (vm_compute; discriminate).
  pose proof (stop_while_speaking_or_queued (Demo.spoken "a") (or_intror Hq) He)
    as (H1 & _ & _ & _ & _ & H6).
  exact (conj Hq (conj H1 H6)).
Defined.

(** C2 fails on the code: after a playback failure the engine handle is
    absent while the program still counts as speaking and an utterance is
    queued.  Stop is enabled in that state, yet pressing it leaves the queue,
    the speaking flag and the stop event as they are and reports nothing
    (neither "Stopped." nor "Nothing to stop."), and the queued utterance
    is played afterwards. *)
Theorem stop_without_engine_does_nothing :
  exists s,
    run Demo.env Demo.playback_fails (build Demo.env) = Some s /\
    Speaking s /\ Queued s /\
    stop_disabled (buttons s) = false /\
    tts_queue (on_stop_button s) = ["b"] /\
    is_speaking (on_stop_button s) = true /\
    tts_stop_event (on_stop_button s) = false /\
    clock (on_stop_button s) = clock s /\
    reported_status (on_stop_button s) = "TTS error." /\
    reported_status (on_stop_button s) <> "Stopped." /\
    exists s2,
      run Demo.env [TtsStep 0 Returns; TtsStep 0 Returns; TtsStep 0 Returns]
        (on_stop_button s) = Some s2 /\
      played (events s2) = ["a"; "b"].
Proof.
  eexists. split; [vm_compute; reflexivity|].
  unfold Speaking, Queued.
  do 9 (split; [vm_compute; congruence|]).
  eexists. split; vm_compute; reflexivity.
Qed.

End StopGuard.

(** ** Speak *)

Section Speak.

(** C7, as the code has it: with a blank text area [on_speak] puts nothing
    on the utterance queue and starts no worker; when [pyttsx3] is
    available and the engine handle is present or its initialisation
    succeeds, it reports "Nothing to speak." and opens no pop-up. *)
Theorem speak_blank_enqueues_nothing (env : Env) (init : Outcome) (s : App) :
  blank (text_area s) = true ->
  let s' := on_speak env init s in
  tts_queue s' = tts_queue s /\
  tts_threads s' = tts_threads s /\
  tts_thread s' = tts_thread s /\
  events s' = events s /\
  (pyttsx3 env = true -> tts_engine s <> None \/ init = Returns ->
   reported_status s' = "Nothing to speak." /\ popups s' = popups s).
Proof.
  intros Hb. apply strip_blank in Hb. cbn zeta. unfold on_speak.
  destruct (pyttsx3 env); cbn [negb].
  2:{ do 4 (split; [reflexivity|]). intros Hp _. discriminate. }
  destruct (tts_engine s) as [e|] eqn:Ee.
  - rewrite Hb. cbn. do 4 (split; [reflexivity|]). intros _ _. split.
    + apply (reported_status_last _ (clock s)). reflexivity.
    + reflexivity.
  - destruct init as [|msg].
    + cbn [text_area set_tts_engine]. rewrite Hb. cbn. do 4 (split; [reflexivity|]). intros _ _. split.
      * apply (reported_status_last _ (clock s)). reflexivity.
      * reflexivity.
    + do 4 (split; [reflexivity|]). intros _ [He | Hi]; congruence.
Qed.

Lemma speak_blank_enqueues_nothing_witness :
  let s := set_text_area "  " (build Demo.env) in
  blank (text_area s) = true /\
  tts_queue (on_speak Demo.env Returns s) = [] /\
  reported_status (on_speak Demo.env Returns s) = "Nothing to speak.".
Proof.
  cbn zeta.
  pose proof (speak_blank_enqueues_nothing Demo.env Returns
                (set_text_area "  " (build Demo.env)) eq_refl)
    as (H1 & _ & _ & _ & H5).
  split; [reflexivity|]. split; [exact H1|].
  apply H5; [reflexivity | right; reflexivity].
Defined.

(** C7 as stated fails: without [pyttsx3] the handler opens the
    missing-dependency pop-up and returns before it looks at the text, so
    no "Nothing to speak." is reported. *)
Lemma speak_blank_without_tts :
  let s := build Demo.env_no_tts in
  blank (text_area s) = true /\
  speak_disabled (buttons s) = false /\
  clock (on_speak Demo.env_no_tts Returns s) = [] /\
  reported_status (on_speak Demo.env_no_tts Returns s) = "Ready" /\
  reported_status (on_speak Demo.env_no_tts Returns s) <> "Nothing to speak." /\
  popups (on_speak Demo.env_no_tts Returns s) =
    [("Missing Dependency", "pyttsx3 is not available. Please install it.")].
Proof. vm_compute. repeat split; congruence. Qed.

End Speak.

(** ** One worker at a time *)

Section Workers.

(** C3 fails on the code: Stop forgets the worker without waiting for it,
    and the next Speak clears the stop event it shares with the new
    worker, so the old worker passes its stop test and both keep
    running; here both end up inside the playback call at once. *)
Theorem two_live_workers_after_stop_speak :
  (exists s,
     run Demo.env Demo.stop_then_speak (build Demo.env) = Some s /\
     tts_threads s = [WGet; WHead] /\
     tts_stop_event s = false /\
     live_tts_workers s = 2) /\
  (exists s,
     run Demo.env Demo.two_playbacks (build Demo.env) = Some s /\
     tts_threads s = [WPlay "a"; WPlay "b"] /\
     live_tts_workers s = 2 /\
     in_flight (events s) = None).
Proof.
  split; eexists; (split; [vm_compute; reflexivity|]);
    repeat split; vm_compute; reflexivity.
Qed.

End Workers.

(** ** Saving *)

Section Save.

Lemma length_app_str (a b : string) :
  String.length (a +:+ b) = String.length a + String.length b.
Proof.
  induction a as [|c a IH]; [reflexivity|].
  rewrite app_cons. cbn [String.length]. now rewrite IH.
Qed.

Lemma length_zpad (w n : nat) : String.length (zpad w n) = w.
Proof.
  revert n. induction w as [|w IH]; intros n; [reflexivity|].
  cbn [zpad]. rewrite length_app_str, IH. cbn. lia.
Qed.

Lemma default_name_length (now : DateTime) :
  String.length (default_name now) = 24.
Proof.
  unfold default_name, strftime.
  rewrite !length_app_str, !length_zpad. reflexivity.
Qed.

Lemma default_name_endswith (now : DateTime) :
  endswith (default_name now) ".txt" = true.
Proof.
  unfold default_name. rewrite <- app_assoc_str. apply endswith_app.
Qed.

(** Whatever was typed, the name settled on ends with [.txt]. *)
Lemma save_name_endswith (entered dflt : string) :
  endswith (save_name entered dflt) ".txt" = true.
Proof.
  unfold save_name.
  destruct (endswith (or_else (strip entered) dflt) ".txt") eqn:H; cbn [negb].
  - exact H.
  - apply endswith_app.
Qed.

(** The last piece of a name ending with [.txt] ends with [.txt]. *)
Lemma split_slash_last (s : string) :
  endswith s ".txt" = true ->
  exists pre last,
    split_slash s = pre ++ [last] /\ endswith last ".txt" = true.
Proof.
  induction s as [|c s IH]; [discriminate|].
  cbn [endswith]. intros H. apply orb_true_iff in H. destruct H as [H | H].
  - apply String.eqb_eq in H. rewrite H. exists [], ".txt". split; reflexivity.
  - destruct (IH H) as (pre & last & Hs & Hl).
    cbn [split_slash]. destruct (Ascii.eqb c "/").
    + exists ("" :: pre), last. rewrite Hs. split; [reflexivity | exact Hl].
    + rewrite Hs. destruct pre as [|h pre]; cbn [app].
      * exists [], (String c last). split; [reflexivity|].
        now apply endswith_cons.
      * exists (String c h :: pre), last. split; [reflexivity | exact Hl].
Qed.

Lemma kept_component_txt (c : string) :
  endswith c ".txt" = true -> kept_component c = true.
Proof.
  intros H. unfold kept_component.
  destruct (String.eqb_spec c ""); [subst; discriminate|].
  destruct (String.eqb_spec c "."); [subst; discriminate|].
  reflexivity.
Qed.

Lemma parts_txt_nonempty (s : string) :
  endswith s ".txt" = true -> parts (parse s) <> [].
Proof.
  intros H. destruct (split_slash_last s H) as (pre & last & Hs & Hl).
  cbn [parts parse]. rewrite Hs, filter_app.
  rewrite (filter_cons_True _ last) by (now rewrite kept_component_txt).
  intros E. apply app_eq_nil in E. destruct E as [_ E]. discriminate.
Qed.

(** C8, as the code has it: a blank entered name falls back to the default
    name [note_YYYYMMDD_HHMMSS.txt] (24 characters, built from the time of
    the Save press); an entered name that, once stripped, does not end with
    [.txt] gets [.txt] appended once, and one that does is kept; the name
    always ends with [.txt]; the text is written to [notes_dir / name],
    which lies inside the notes directory when the name is relative and has
    no [..] component. *)
Theorem save_name_normalised (env : Env) (now : DateTime) (entered : string)
    (s : App) :
  let name := save_name entered (default_name now) in
  (blank entered = true ->
   name = default_name now /\ String.length name = 24) /\
  (blank entered = false -> endswith (strip entered) ".txt" = false ->
   name = strip entered +:+ ".txt") /\
  (blank entered = false -> endswith (strip entered) ".txt" = true ->
   name = strip entered) /\
  endswith name ".txt" = true /\
  files (on_save env now entered Returns s) =
    (joinpath (notes_dir env) name, text_area s) :: files s /\
  (absolute (parse name) = false -> ~ In ".." (parts (parse name)) ->
   inside (notes_dir env) (joinpath (notes_dir env) name)).
Proof.
  cbn zeta. split; [|split; [|split; [|split; [|split]]]].
  - intros Hb. apply strip_blank in Hb.
    unfold save_name, or_else. rewrite Hb. cbn [truthy].
    rewrite default_name_endswith. cbn [negb].
    split; [reflexivity | apply default_name_length].
  - intros Hb He. unfold save_name, or_else.
    destruct (strip entered) as [|c r] eqn:Es.
    + apply strip_blank in Es. congruence.
    + cbn [truthy]. rewrite He. reflexivity.
  - intros Hb He. unfold save_name, or_else.
    destruct (strip entered) as [|c r] eqn:Es.
    + apply strip_blank in Es. congruence.
    + cbn [truthy]. rewrite He. reflexivity.
  - apply save_name_endswith.
  - reflexivity.
  - intros Habs Hdots. unfold inside, joinpath. rewrite Habs. cbn.
    split; [reflexivity|].
    exists (parts (parse (save_name entered (default_name now)))).
    split; [reflexivity|]. split; [|exact Hdots].
    apply parts_txt_nonempty, save_name_endswith.
Qed.

Lemma save_name_normalised_witness :
  save_name "  " (default_name Demo.noon) = "note_20250309_120007.txt" /\
  save_name " memo " (default_name Demo.noon) = "memo.txt" /\
  save_name "memo.txt" (default_name Demo.noon) = "memo.txt" /\
  inside (notes_dir Demo.env)
    (joinpath (notes_dir Demo.env) (save_name "memo" (default_name Demo.noon))).
Proof.
  pose proof (save_name_normalised Demo.env Demo.noon "  " (build Demo.env))
    as (H1 & _).
  pose proof (save_name_normalised Demo.env Demo.noon " memo " (build Demo.env))
    as (_ & H2 & _).
  pose proof (save_name_normalised Demo.env Demo.noon "memo.txt" (build Demo.env))
    as (_ & _ & H3 & _).
  pose proof (save_name_normalised Demo.env Demo.noon "memo" (build Demo.env))
    as (_ & _ & _ & _ & _ & H6).
  split; [exact (proj1 (H1 eq_refl))|].
  split; [exact (H2 eq_refl eq_refl)|].
  split; [exact (H3 eq_refl eq_refl)|].
  apply H6; [reflexivity|].
  cbn. intros [H | []]. discriminate.
Defined.

(** C8 as stated fails: an entered absolute name replaces the notes
    directory, so the file is written outside it. *)
Lemma save_absolute_name_leaves_notes_dir :
  let s := on_save Demo.env Demo.noon "/tmp/x" Returns (build Demo.env) in
  save_name "/tmp/x" (default_name Demo.noon) = "/tmp/x.txt" /\
  files s = [({| root := "/"; parts := ["tmp"; "x.txt"] |}, "")] /\
  render (save_path Demo.env "/tmp/x" (default_name Demo.noon)) = "/tmp/x.txt" /\
  ~ inside (notes_dir Demo.env)
      (save_path Demo.env "/tmp/x" (default_name Demo.noon)).
Proof.
  cbn zeta. split; [reflexivity|]. split; [reflexivity|].
  split; [reflexivity|].
  intros (_ & rest & Hp & _). vm_compute in Hp. discriminate.
Qed.

End Save.

(** ** Playback order *)

Section Playback.

Lemma single_worker_view (s s' : App) :
  tts_view s' = tts_view s -> single_worker s -> single_worker s'.
Proof.
  unfold tts_view, single_worker. intros E H.
  injection E as E1 E2 E3 E4 E5. rewrite E1, E2, E3, E4, E5. exact H.
Qed.

Lemma frame_view (s : App) : tts_view (frame s) = tts_view s.
Proof.
  unfold frame.
  change (tts_view s) with (tts_view (set_clock [] s)).
  generalize (set_clock [] s). generalize (clock s).
  intros cbs. induction cbs as [|cb cbs IH]; intros t; [reflexivity|].
  cbn [fold_left]. rewrite IH. destruct cb; reflexivity.
Qed.

Lemma on_record_view (env : Env) (s : App) :
  tts_view (on_record env s) = tts_view s.
Proof.
  unfold on_record. destruct (is_listening s); [reflexivity|].
  destruct (_ || _); reflexivity.
Qed.

Lemma on_save_view (env : Env) now entered write (s : App) :
  tts_view (on_save env now entered write s) = tts_view s.
Proof. destruct write; reflexivity. Qed.

Lemma listen_step_view (tid : nat) (h : Heard) (s s' : App) :
  listen_step tid h s = Some s' -> tts_view s' = tts_view s.
Proof.
  unfold listen_step, listen_failed.
  destruct (listen_threads s !! tid) as [[| | |]|]; try discriminate.
  - destruct h; intros E; inversion E; reflexivity.
  - destruct (listen_stop_event s); intros E; inversion E; reflexivity.
  - destruct h; intros E; inversion E; reflexivity.
Qed.

(** What [on_speak] does to the speech side: nothing, or it enqueues the
    stripped text, which is not empty, and starts a worker unless the one
    [tts_thread] refers to is alive. *)
Lemma on_speak_view (env : Env) (init : Outcome) (s : App) :
  let s' := on_speak env init s in
  tts_view s' = tts_view s \/
  (truthy (strip (text_area s)) = true /\
   tts_queue s' = tts_queue s ++ [strip (text_area s)] /\
   events s' = EvPut (strip (text_area s)) :: events s /\
   ((tts_thread_alive s = true /\ tts_stop_event s' = tts_stop_event s /\
     tts_threads s' = tts_threads s /\ tts_thread s' = tts_thread s)
    \/
    (tts_thread_alive s = false /\ tts_stop_event s' = false /\
     tts_threads s' = tts_threads s ++ [WHead] /\
     tts_thread s' = Some (length (tts_threads s))))).
Proof.
  cbn zeta. unfold on_speak.
  destruct (pyttsx3 env); cbn [negb]; [|left; reflexivity].
  assert (Hgen : forall s1 : App,
    tts_view s1 = tts_view s -> text_area s1 = text_area s ->
    let r :=
      (let text := strip (text_area s1) in
       if negb (truthy text) then _set_status "Nothing to speak." s1
       else
         let s2 := set_tts_queue (tts_queue s1 ++ [text]) s1 in
         let s2 := set_events (EvPut text :: events s2) s2 in
         let s2 := _set_status "Queued for speaking..." s2 in
         let s2 :=
           if negb (tts_thread_alive s2) then
             let s2 := set_tts_stop_event false s2 in
             let s2 := set_tts_thread (Some (length (tts_threads s2))) s2 in
             set_tts_threads (tts_threads s2 ++ [WHead]) s2
           else s2 in
         _update_buttons s2) in
    tts_view r = tts_view s \/
    (truthy (strip (text_area s)) = true /\
     tts_queue r = tts_queue s ++ [strip (text_area s)] /\
     events r = EvPut (strip (text_area s)) :: events s /\
     ((tts_thread_alive s = true /\ tts_stop_event r = tts_stop_event s /\
       tts_threads r = tts_threads s /\ tts_thread r = tts_thread s)
      \/
      (tts_thread_alive s = false /\ tts_stop_event r = false /\
       tts_threads r = tts_threads s ++ [WHead] /\
       tts_thread r = Some (length (tts_threads s)))))).
  { intros s1 Hv Ht. cbn zeta. rewrite Ht.
    unfold tts_view in Hv. injection Hv as V1 V2 V3 V4 V5.
    destruct (truthy (strip (text_area s))) eqn:Htxt; cbn [negb].
    - right. split; [reflexivity|].
      assert (Ha : tts_thread_alive
                     (_set_status "Queued for speaking..."
                        (set_events
                           (EvPut (strip (text_area s))
                            :: events (set_tts_queue
                                         (tts_queue s1 ++ [strip (text_area s)]) s1))
                           (set_tts_queue
                              (tts_queue s1 ++ [strip (text_area s)]) s1)))
                   = tts_thread_alive s).
      { unfold tts_thread_alive. cbn. now rewrite V2, V3. }
      rewrite Ha. destruct (tts_thread_alive s); cbn.
      + rewrite V1, V2, V3, V4, V5. split; [reflexivity|].
        split; [reflexivity|]. left. repeat split; reflexivity.
      + rewrite V2, V4, V5. split; [reflexivity|].
        split; [reflexivity|]. right. repeat split; reflexivity.
    - left. unfold tts_view. cbn. now rewrite V1, V2, V3, V4, V5. }
  destruct (tts_engine s) as [e|].
  - apply (Hgen s); reflexivity.
  - destruct init as [|msg].
    + apply (Hgen (set_tts_engine (Some Pyttsx3Engine) s)); reflexivity.
    + left. reflexivity.
Qed.

Lemma single_worker_build (env : Env) : single_worker (build env).
Proof.
  split; [reflexivity|]. left. repeat split; reflexivity.
Qed.

Lemma single_worker_on_speak (env : Env) (init : Outcome) (s : App) :
  single_worker s -> single_worker (on_speak env init s).
Proof.
  intros Hinv.
  destruct (on_speak_view env init s) as [Hv | (Htxt & Hq & Hev & Hth)].
  { exact (single_worker_view _ _ Hv Hinv). }
  destruct Hinv as (Hstop & [(Hts & Ht & Hfl & Henq) | (pc & Hts & Ht & Hal & Hfl & Henq)]).
  - destruct Hth as [(Ha & _) | (_ & H1 & H2 & H3)].
    { unfold tts_thread_alive in Ha. rewrite Ht in Ha. discriminate. }
    split; [exact H1|]. right. exists WHead.
    rewrite H2, H3, Hts, Hev, Hq. cbn [in_flight enqueued handled held app length].
    rewrite Hfl, Henq. repeat split; try reflexivity.
    now rewrite <- app_assoc.
  - destruct Hth as [(_ & H1 & H2 & H3) | (Ha & _)].
    2:{ unfold tts_thread_alive in Ha. rewrite Ht, Hts in Ha. cbn in Ha.
        congruence. }
    split; [congruence|]. right. exists pc.
    rewrite H2, H3, Hev, Hq. cbn [in_flight enqueued handled].
    rewrite Hfl, Henq. repeat split; try assumption.
    + now destruct (playing 0 pc).
    + now rewrite <- !app_assoc.
Qed.

Lemma single_worker_tts_step (env : Env) (tid : nat) (o : Outcome) (s s' : App) :
  single_worker s -> tts_step env tid o s = Some s' -> single_worker s'.
Proof.
  intros (Hstop & [(Hts & Ht & Hfl & Henq) | (pc & Hts & Ht & Hal & Hfl & Henq)]).
  { unfold tts_step. rewrite Hts. discriminate. }
  unfold tts_step. rewrite Hts.
  destruct tid as [|tid]; [|discriminate]. cbn [lookup list_lookup].
  destruct pc as [| |text|text|]; [| | | |discriminate].
  - (* WHead *)
    rewrite Hstop. cbn [negb]. intros E. inversion E; subst s'; clear E.
    split; [exact Hstop|]. right. exists WGet. unfold set_tts_pc. cbn.
    rewrite Hts. repeat split; assumption.
  - (* WGet *)
    destruct (tts_queue s) as [|text rest] eqn:Hq.
    + intros E. inversion E; subst s'; clear E.
      split; [now destruct (is_speaking s)|]. right. exists WHead.
      unfold set_tts_pc.
      destruct (is_speaking s); cbn; rewrite Hts, ?Hq; repeat split; assumption.
    + intros E. inversion E; subst s'; clear E.
      split; [exact Hstop|]. right. exists (WGot text).
      unfold set_tts_pc. cbn. rewrite Hts, Hfl, Henq.
      repeat split; first [reflexivity | assumption].
  - (* WGot *)
    assert (Hskip : forall s1 : App,
              tts_view s1 = tts_view s ->
              single_worker (set_tts_pc 0 WHead (log (EvSkip 0 text) s1))).
    { intros s1 Hv. unfold tts_view in Hv. injection Hv as V1 V2 V3 V4 V5.
      split; [exact (eq_trans V1 Hstop)|]. right. exists WHead.
      unfold set_tts_pc. cbn. rewrite V2, V3, V4, V5, Hts, Hfl, Henq.
      repeat split; try assumption. cbn. now rewrite <- app_assoc. }
    assert (Hsay : forall s1 : App,
              tts_view s1 = tts_view s ->
              single_worker
                (set_tts_pc 0 (WPlay text)
                   (log (EvSay 0 text)
                      (schedule_update_buttons
                         (_set_status "Speaking..." (set_is_speaking true s1)))))).
    { intros s1 Hv. unfold tts_view in Hv. injection Hv as V1 V2 V3 V4 V5.
      split; [exact (eq_trans V1 Hstop)|]. right. exists (WPlay text).
      unfold set_tts_pc. cbn. rewrite V2, V3, V4, V5, Hts, Hfl, Henq.
      repeat split; try assumption. cbn. now rewrite <- app_assoc. }
    destruct (truthy text); cbn [negb].
    2:{ intros E. inversion E. apply Hskip. reflexivity. }
    destruct (bool_decide (tts_engine s = None) && pyttsx3 env).
    + destruct o as [|msg].
      * cbn. intros E. inversion E. apply Hsay. reflexivity.
      * intros E. inversion E. apply Hskip. reflexivity.
    + destruct (bool_decide (is_Some (tts_engine s))); cbn [negb].
      * intros E. inversion E. apply Hsay. reflexivity.
      * intros E. inversion E. apply Hskip. reflexivity.
  - (* WPlay *)
    intros E. inversion E; subst s'; clear E.
    split; [now destruct o|]. right. exists WHead.
    unfold set_tts_pc.
    destruct o; cbn; rewrite Hts, Hfl, Henq; cbn;
      rewrite bool_decide_eq_true_2 by reflexivity;
      repeat split; first [reflexivity | assumption].
Qed.

Lemma single_worker_step (env : Env) (a : Action) (s s' : App) :
  is_stop a = false -> single_worker s -> step env a s = Some s' ->
  single_worker s'.
Proof.
  intros Ha Hinv. destruct a; cbn [step]; try discriminate Ha;
    unfold pressed.
  - destruct (record_disabled _); [discriminate|]. intros E. inversion E.
    exact (single_worker_view _ _ (on_record_view env s) Hinv).
  - destruct (speak_disabled _); [discriminate|]. intros E. inversion E.
    now apply single_worker_on_speak.
  - destruct (new_disabled _); [discriminate|]. intros E. inversion E.
    exact (single_worker_view _ s eq_refl Hinv).
  - destruct (save_disabled _); [discriminate|]. intros E. inversion E.
    exact (single_worker_view _ _ (on_save_view env now entered write s) Hinv).
  - intros E. inversion E. exact (single_worker_view _ s eq_refl Hinv).
  - intros E. inversion E. exact (single_worker_view _ s eq_refl Hinv).
  - intros E. inversion E. exact (single_worker_view _ _ (frame_view s) Hinv).
  - now apply single_worker_tts_step.
  - intros E. exact (single_worker_view _ _ (listen_step_view _ _ _ _ E) Hinv).
Qed.

Lemma single_worker_run (env : Env) (acts : list Action) (s s' : App) :
  no_stop acts -> single_worker s -> run env acts s = Some s' ->
  single_worker s'.
Proof.
  unfold no_stop. revert s. induction acts as [|a acts IH]; intros s Hns Hinv.
  - intros E. inversion E. now subst.
  - cbn [existsb] in Hns. apply orb_false_iff in Hns. destruct Hns as [Ha Hns].
    cbn [run]. destruct (step env a s) as [s1|] eqn:Es; [|discriminate].
    apply IH; [exact Hns|]. exact (single_worker_step env a s s1 Ha Hinv Es).
Qed.

Lemma played_sublist_handled (evs : list Event) :
  sublist (played evs) (handled evs).
Proof.
  induction evs as [|e evs IH]; [constructor|].
  destruct e; cbn [played handled]; try exact IH.
  - apply sublist_inserts_r. exact IH.
  - apply sublist_app; [exact IH | reflexivity].
Qed.

Lemma played_no_skip (evs : list Event) :
  no_skip evs -> played evs = handled evs.
Proof.
  unfold no_skip. induction evs as [|e evs IH]; [reflexivity|].
  cbn [existsb]. intros H. apply orb_false_iff in H. destruct H as [He H].
  destruct e; cbn [played handled]; try (now apply IH); try discriminate.
  now rewrite IH.
Qed.

(** X24: in every run of the program from [build] in which Stop is not
    pressed, whatever the interleaving of the user, the Clock and the
    threads: there is at most one worker;
    no two playback calls overlap; the utterances enqueued are, in order,
    those already decided about, the one the worker holds, and those still
    queued; the playback calls are a subsequence of the enqueue sequence,
    and are exactly its decided prefix when no item was given up. *)
Theorem playback_in_enqueue_order (env : Env) (acts : list Action) (s : App) :
  no_stop acts ->
  run env acts (build env) = Some s ->
  length (tts_threads s) <= 1 /\
  serial (events s) /\
  (exists pending,
     length pending <= 1 /\
     enqueued (events s) = handled (events s) ++ pending ++ tts_queue s) /\
  sublist (played (events s)) (enqueued (events s)) /\
  (no_skip (events s) ->
   exists pending,
     length pending <= 1 /\
     enqueued (events s) = played (events s) ++ pending ++ tts_queue s).
Proof.
  intros Hns Hrun.
  pose proof (single_worker_run env acts _ s Hns (single_worker_build env) Hrun)
    as (_ & Hcases).
  assert (Hpend : exists pending,
            length pending <= 1 /\
            enqueued (events s) = handled (events s) ++ pending ++ tts_queue s).
  { destruct Hcases as [(_ & _ & _ & Henq) | (pc & _ & _ & _ & _ & Henq)].
    - exists []. split; [cbn; lia | exact Henq].
    - exists (held pc). split; [destruct pc; cbn; lia | exact Henq]. }
  split; [|split; [|split; [exact Hpend|split]]].
  - destruct Hcases as [(-> & _) | (pc & -> & _)]; cbn; lia.
  - unfold serial.
    destruct Hcases as [(_ & _ & -> & _) | (pc & _ & _ & _ & -> & _)]; eauto.
  - destruct Hpend as (pending & _ & ->).
    etransitivity; [apply played_sublist_handled|].
    apply sublist_inserts_r. reflexivity.
  - intros Hsk. rewrite (played_no_skip _ Hsk). exact Hpend.
Qed.

Lemma playback_in_enqueue_order_witness :
  exists s,
    run Demo.env Demo.hello_world (build Demo.env) = Some s /\
    played (events s) = ["Hello"; "World"] /\
    tts_queue s = [] /\ is_speaking s = false /\
    serial (events s) /\
    sublist (played (events s)) (enqueued (events s)).
Proof.
  assert (Hns : no_stop Demo.hello_world) by (vm_compute; reflexivity).
  destruct (run Demo.env Demo.hello_world (build Demo.env)) as [s|] eqn:Hrun;
    [|vm_compute in Hrun; discriminate].
  exists s. split; [reflexivity|].
  pose proof (playback_in_enqueue_order Demo.env Demo.hello_world s Hns Hrun)
    as (_ & Hser & _ & Hsub & _).
  vm_compute in Hrun. injection Hrun as E. rewrite <- E in Hser, Hsub |- *.
  split; [vm_compute; reflexivity|]. split; [vm_compute; reflexivity|].
  split; [vm_compute; reflexivity|]. exact (conj Hser Hsub).
Defined.

(** C1 fails on the code, by the defect of C3: once Stop has been pressed
    and Speak pressed again while the first worker is still in its loop, two
    workers serve the one queue.  In the first run two playback calls are in
    progress at once; in the second the utterances are enqueued in the order
    x, a, b and the playback calls are made in the order x, b, a. *)
Theorem playback_order_broken_after_stop_speak :
  (exists s,
     run Demo.env Demo.two_playbacks (build Demo.env) = Some s /\
     rev (events s) =
       [EvPut "a"; EvGet 0 "a"; EvSay 0 "a"; EvPut "a"; EvDone 0 "a";
        EvPut "b"; EvGet 0 "a"; EvGet 1 "b"; EvSay 0 "a"; EvSay 1 "b"] /\
     ~ serial (events s)) /\
  (exists s,
     run Demo.env Demo.out_of_order (build Demo.env) = Some s /\
     enqueued (events s) = ["x"; "a"; "b"] /\
     played (events s) = ["x"; "b"; "a"] /\
     tts_queue s = [] /\
     live_tts_workers s = 2).
Proof.
  split; eexists; (split; [vm_compute; reflexivity|]).
  - split; [vm_compute; reflexivity|].
    unfold serial. intros [x Hx]. vm_compute in Hx. discriminate.
  - repeat split; vm_compute; reflexivity.
Qed.

End Playback.

(** ** Recording *)

Section Capture.

(** X1: With the recogniser available and nothing recording, [on_record] sets
    the listening flag, clears the stop event, starts one capture thread and
    reports "Listening..."; Record and Speak are disabled and Stop is
    enabled from then on, so a second press of Record or a press of Speak is
    not dispatched.  The speech side, the document and the transcript queue
    are untouched. *)
Theorem record_starts_capture (env : Env) (s : App) :
  sr env = true -> is_listening s = false ->
  let s' := on_record env s in
  is_listening s' = true /\
  listen_stop_event s' = false /\
  listen_threads s' = listen_threads s ++ [LStart] /\
  reported_status s' = "Listening..." /\
  buttons s' =
    {| record_disabled := true; stop_disabled := false; speak_disabled := true;
       save_disabled := false; load_disabled := false; new_disabled := false |} /\
  step env PressRecord s' = None /\
  (forall init, step env (PressSpeak init) s' = None) /\
  popups s' = popups s /\
  tts_view s' = tts_view s /\
  text_area s' = text_area s /\
  results_queue s' = results_queue s.
Proof.
  intros Hsr Hl. cbn zeta. unfold on_record, recognizer. rewrite Hl, Hsr.
  cbn [negb orb bool_decide]. rewrite bool_decide_eq_true_2 by eauto.
  cbn [negb orb].
  split; [reflexivity|]. split; [reflexivity|]. split; [reflexivity|].
  split; [apply (reported_status_last _ (clock s)); reflexivity|].
  repeat split; reflexivity.
Qed.

Lemma record_starts_capture_witness :
  is_listening recording = true /\
  listen_threads recording = [LStart] /\
  reported_status recording = "Listening...".
Proof.
  pose proof (record_starts_capture env_full (build env_full) eq_refl eq_refl)
    as (H1 & _ & H3 & H4 & _).
  exact (conj H1 (conj H3 H4)).
Defined.

(** X2: Without [speech_recognition], [on_record] opens the missing-dependency
    pop-up and does nothing else: the listening flag stays clear, no thread
    is started and no status is reported. *)
Theorem record_without_recogniser (env : Env) (s : App) :
  sr env = false -> is_listening s = false ->
  on_record env s =
    set_popups
      (popups s ++
       [("Missing Dependency",
         "speech_recognition is not available. Please install it.")]) s /\
  is_listening (on_record env s) = false /\
  listen_threads (on_record env s) = listen_threads s /\
  clock (on_record env s) = clock s.
Proof.
  intros Hsr Hl. unfold on_record, recognizer. rewrite Hl, Hsr.
  cbn. rewrite Hl. repeat split; reflexivity.
Qed.

Lemma record_without_recogniser_witness :
  listen_threads (on_record env_bare (build env_bare)) = [] /\
  length (popups (on_record env_bare (build env_bare))) = 1.
Proof.
  pose proof (record_without_recogniser env_bare (build env_bare) eq_refl eq_refl)
    as (H1 & _ & H3 & _).
  split; [exact H3|]. rewrite H1. reflexivity.
Defined.

(** X3: Stop while only recording: the stop event is set and "Stopping
    listening..." is reported, but the listening flag stays set (the capture
    thread clears it when it leaves), so Record and Speak stay disabled and
    Stop stays enabled; the speech side is untouched. *)
Theorem stop_while_listening_only (s : App) :
  is_listening s = true -> is_speaking s = false -> tts_queue s = [] ->
  let s' := on_stop_button s in
  listen_stop_event s' = true /\
  is_listening s' = true /\
  reported_status s' = "Stopping listening..." /\
  record_disabled (buttons s') = true /\
  speak_disabled (buttons s') = true /\
  stop_disabled (buttons s') = false /\
  tts_view s' = tts_view s /\
  tts_engine s' = tts_engine s /\
  listen_threads s' = listen_threads s.
Proof.
  intros Hl Hs Hq. cbn zeta. unfold on_stop_button. rewrite Hl.
  cbn. rewrite ?Hs, ?Hq, ?Hl. cbn. rewrite ?Hs, ?Hq, ?Hl. cbn.
  split; [reflexivity|]. split; [exact Hl|].
  split; [apply (reported_status_last _ (clock s)); reflexivity|].
  unfold tts_view. cbn. rewrite ?Hl, ?Hs, ?Hq. repeat split; reflexivity.
Qed.

Lemma stop_while_listening_only_witness :
  listen_stop_event (on_stop_button recording) = true /\
  reported_status (on_stop_button recording) = "Stopping listening...".
Proof.
  pose proof (stop_while_listening_only recording eq_refl eq_refl eq_refl)
    as (H1 & _ & H3 & _).
  exact (conj H1 H3).
Defined.

(** X4: Stop while recording and speaking (or queued) with the engine present:
    both stop events are set in the one call, and the status that remains
    is "Stopped.", the "Stopping listening..." report being overwritten. *)
Theorem stop_both_workers (s : App) :
  is_listening s = true ->
  is_speaking s = true \/ tts_queue s <> [] ->
  tts_engine s <> None ->
  let s' := on_stop_button s in
  listen_stop_event s' = true /\
  tts_stop_event s' = true /\
  tts_queue s' = [] /\
  clock s' = clock s ++ [CbStatus "Stopping listening..."; CbStatus "Stopped."] /\
  reported_status s' = "Stopped.".
Proof.
  intros Hl Hsq He. cbn zeta.
  assert (Hb : is_speaking s || negb (empty (tts_queue s)) = true).
  { destruct Hsq as [-> | Hq]; [reflexivity|].
    destruct (tts_queue s); [congruence|]. apply orb_true_r. }
  destruct (tts_engine s) as [e|] eqn:Ee; [clear He | congruence].
  unfold on_stop_button. rewrite Hl. cbn. rewrite Hb, Ee. cbn. rewrite Hl. cbn.
  split; [reflexivity|]. split; [reflexivity|]. split; [reflexivity|].
  split; [now rewrite <- app_assoc|].
  apply (reported_status_last _ (clock s ++ [CbStatus "Stopping listening..."])).
  reflexivity.
Qed.

Lemma stop_both_workers_witness :
  listen_stop_event (on_stop_button recording_and_queued) = true /\
  tts_stop_event (on_stop_button recording_and_queued) = true /\
  reported_status (on_stop_button recording_and_queued) = "Stopped.".
Proof.
  assert (Hq : tts_queue recording_and_queued <> [])
    by (vm_compute; discriminate).
  assert (He : tts_engine recording_and_queued <> None)
    by (vm_compute; discriminate).
  pose proof (stop_both_workers recording_and_queued eq_refl (or_intror Hq) He)
    as (H1 & H2 & _ & _ & H5).
  exact (conj H1 (conj H2 H5)).
Defined.

(** X5: The capture loop honours the stop event at its head: a thread that
    reaches the head with the event set leaves; the listening flag and the
    event are cleared, "Ready" is reported, a button update is scheduled,
    and the thread takes no further step. *)
Theorem listen_loop_leaves_on_stop (tid : nat) (h : Heard) (s : App) :
  listen_threads s !! tid = Some LHead -> listen_stop_event s = true ->
  exists s',
    listen_step tid h s = Some s' /\
    listen_threads s' !! tid = Some LExit /\
    is_listening s' = false /\
    listen_stop_event s' = false /\
    clock s' = clock s ++ [CbStatus "Ready"; CbUpdateButtons] /\
    reported_status s' = "Ready" /\
    results_queue s' = results_queue s /\
    (forall h', listen_step tid h' s' = None).
Proof.
  intros Hpc Hev. unfold listen_step. rewrite Hpc, Hev. cbn [negb].
  eexists. split; [reflexivity|].
  assert (Hl : listen_threads (listen_finally tid s) !! tid = Some LExit).
  { cbn. apply list_lookup_insert_eq. now apply lookup_lt_Some in Hpc. }
  split; [exact Hl|]. split; [reflexivity|]. split; [reflexivity|].
  split; [cbn; now rewrite <- app_assoc|].
  split; [apply (reported_status_last_update _ (clock s)); cbn;
          now rewrite <- app_assoc|].
  split; [reflexivity|].
  intros h'. unfold listen_step. now rewrite Hl.
Qed.

Lemma listen_loop_leaves_on_stop_witness :
  exists s',
    listen_step 0 WaitTimeout (on_stop_button at_loop_head) = Some s' /\
    is_listening s' = false /\ reported_status s' = "Ready".
Proof.
  destruct (listen_loop_leaves_on_stop 0 WaitTimeout (on_stop_button at_loop_head)
              eq_refl eq_refl) as (s' & H1 & _ & H3 & _ & _ & H6 & _).
  exists s'. exact (conj H1 (conj H3 H6)).
Defined.

(** X6: A microphone failure ends the capture thread wherever it is (opening the
    microphone or listening): the "Microphone Error" pop-up opens, the
    listening flag and the stop event are cleared, and, the [finally] clause
    reporting after the handler, the status that remains is "Ready", not
    "Microphone error.". *)
Theorem listen_loop_microphone_error (tid : nat) (e : string) (pc : ListenPc)
    (s : App) :
  listen_threads s !! tid = Some pc -> pc = LStart \/ pc = LListen ->
  exists s',
    listen_step tid (OsError e) s = Some s' /\
    listen_threads s' !! tid = Some LExit /\
    is_listening s' = false /\
    listen_stop_event s' = false /\
    popups s' = popups s ++ [("Microphone Error", e)] /\
    clock s' =
      clock s ++ [CbStatus "Microphone error."; CbStatus "Ready"; CbUpdateButtons] /\
    reported_status s' = "Ready" /\
    results_queue s' = results_queue s.
Proof.
  intros Hpc Hcase. unfold listen_step. rewrite Hpc.
  assert (Hlt : tid < length (listen_threads s)) by now apply lookup_lt_Some in Hpc.
  destruct Hcase as [-> | ->]; cbn [listen_failed];
    (eexists; split; [reflexivity|]);
    (split; [cbn; now apply list_lookup_insert_eq|]);
    (split; [reflexivity|]); (split; [reflexivity|]); (split; [reflexivity|]);
    (split; [cbn; now rewrite <- !app_assoc|]);
    (split; [|reflexivity]);
    apply (reported_status_last_update _ (clock s ++ [CbStatus "Microphone error."]));
    cbn; now rewrite <- !app_assoc.
Qed.

Lemma listen_loop_microphone_error_witness :
  exists s',
    listen_step 0 (OsError "no device") recording = Some s' /\
    is_listening s' = false /\ reported_status s' = "Ready".
Proof.
  destruct (listen_loop_microphone_error 0 "no device" LStart recording
              eq_refl (or_introl eq_refl)) as (s' & H1 & _ & H3 & _ & _ & _ & H7 & _).
  exists s'. exact (conj H1 (conj H3 H7)).
Defined.

(** X7: A capture cycle that times out, is not understood or hits a service
    error keeps the thread in its loop: it is back at the loop head, still
    listening, with the transcript queue, the pop-ups and the stop event as
    they were. *)
Theorem listen_loop_survives_transient (tid : nat) (h : Heard) (s : App) :
  listen_threads s !! tid = Some LListen ->
  h = WaitTimeout \/ h = UnknownValue \/ (exists e, h = RequestError e) ->
  exists s',
    listen_step tid h s = Some s' /\
    listen_threads s' !! tid = Some LHead /\
    is_listening s' = is_listening s /\
    listen_stop_event s' = listen_stop_event s /\
    results_queue s' = results_queue s /\
    popups s' = popups s /\
    text_area s' = text_area s.
Proof.
  intros Hpc Hcase. unfold listen_step. rewrite Hpc.
  assert (Hlt : tid < length (listen_threads s)) by now apply lookup_lt_Some in Hpc.
  destruct Hcase as [-> | [-> | (e & ->)]];
    (eexists; split; [reflexivity|]);
    (split; [cbn; now apply list_lookup_insert_eq|]);
    repeat split; reflexivity.
Qed.

Lemma listen_loop_survives_transient_witness :
  exists s',
    listen_step 0 (RequestError "offline") in_listen = Some s' /\
    listen_threads s' !! 0 = Some LHead /\ is_listening s' = true.
Proof.
  destruct (listen_loop_survives_transient 0 (RequestError "offline") in_listen
              eq_refl (or_intror (or_intror (ex_intro _ "offline" eq_refl))))
    as (s' & H1 & H2 & H3 & _).
  exists s'. split; [exact H1|]. split; [exact H2|]. rewrite H3. reflexivity.
Defined.

End Capture.

(** ** One capture thread at a time *)

Section CaptureInvariant.



Lemma frame_listen_view (s : App) : listen_view (frame s) = listen_view s.
Proof.
  unfold frame.
  change (listen_view s) with (listen_view (set_clock [] s)).
  generalize (set_clock [] s). generalize (clock s).
  intros cbs. induction cbs as [|cb cbs IH]; intros t; [reflexivity|].
  cbn [fold_left]. rewrite IH. destruct cb; reflexivity.
Qed.











End CaptureInvariant.

(** ** Speaking *)

Section Speech.

Lemma run_app (env : Env) (acts1 acts2 : list Action) (s : App) :
  run env (acts1 ++ acts2) s =
  match run env acts1 s with
  | Some s1 => run env acts2 s1
  | None => None
  end.
Proof.
  revert s. induction acts1 as [|a acts1 IH]; intros s; [reflexivity|].
  cbn [app run]. destruct (step env a s); [apply IH | reflexivity].
Qed.

(** X9: With [pyttsx3] available, the engine present or re-initialised, and a
    text area that is not blank, [on_speak] appends the stripped text (which
    is not empty) at the back of the utterance queue, reports "Queued for
    speaking..." and enables Stop; afterwards the worker [tts_thread] refers
    to is alive: the one that was alive already, or else a new one, started
    at its loop head with the stop event cleared.  The document is not
    changed. *)
Theorem speak_enqueues_stripped_text (env : Env) (init : Outcome) (s : App) :
  pyttsx3 env = true ->
  tts_engine s <> None \/ init = Returns ->
  blank (text_area s) = false ->
  let s' := on_speak env init s in
  tts_queue s' = tts_queue s ++ [strip (text_area s)] /\
  truthy (strip (text_area s)) = true /\
  reported_status s' = "Queued for speaking..." /\
  stop_disabled (buttons s') = false /\
  tts_engine s' <> None /\
  tts_thread_alive s' = true /\
  (tts_thread_alive s = true ->
   tts_threads s' = tts_threads s /\ tts_thread s' = tts_thread s /\
   tts_stop_event s' = tts_stop_event s) /\
  (tts_thread_alive s = false ->
   tts_threads s' = tts_threads s ++ [WHead] /\
   tts_thread s' = Some (length (tts_threads s)) /\
   tts_stop_event s' = false) /\
  text_area s' = text_area s.
Proof.
  intros Hp He Hb. cbn zeta.
  assert (Htxt : truthy (strip (text_area s)) = true).
  { destruct (truthy (strip (text_area s))) eqn:E; [reflexivity|].
    apply truthy_false, strip_blank in E. congruence. }
  assert (Hgen : forall s1 : App,
    tts_view s1 = tts_view s -> text_area s1 = text_area s ->
    clock s1 = clock s -> is_listening s1 = is_listening s ->
    tts_engine s1 <> None ->
    let r :=
      (let text := strip (text_area s1) in
       if negb (truthy text) then _set_status "Nothing to speak." s1
       else
         let s2 := set_tts_queue (tts_queue s1 ++ [text]) s1 in
         let s2 := set_events (EvPut text :: events s2) s2 in
         let s2 := _set_status "Queued for speaking..." s2 in
         let s2 :=
           if negb (tts_thread_alive s2) then
             let s2 := set_tts_stop_event false s2 in
             let s2 := set_tts_thread (Some (length (tts_threads s2))) s2 in
             set_tts_threads (tts_threads s2 ++ [WHead]) s2
           else s2 in
         _update_buttons s2) in
    tts_queue r = tts_queue s ++ [strip (text_area s)] /\
    truthy (strip (text_area s)) = true /\
    reported_status r = "Queued for speaking..." /\
    stop_disabled (buttons r) = false /\
    tts_engine r <> None /\
    tts_thread_alive r = true /\
    (tts_thread_alive s = true ->
     tts_threads r = tts_threads s /\ tts_thread r = tts_thread s /\
     tts_stop_event r = tts_stop_event s) /\
    (tts_thread_alive s = false ->
     tts_threads r = tts_threads s ++ [WHead] /\
     tts_thread r = Some (length (tts_threads s)) /\
     tts_stop_event r = false) /\
    text_area r = text_area s).
  { intros s1 Hv Ht Hc Hl Hen. cbn zeta. rewrite Ht, Htxt. cbn [negb].
    unfold tts_view in Hv. injection Hv as V1 V2 V3 V4 V5.
    assert (Ha : tts_thread_alive
                   (_set_status "Queued for speaking..."
                      (set_events
                         (EvPut (strip (text_area s))
                          :: events (set_tts_queue
                                       (tts_queue s1 ++ [strip (text_area s)]) s1))
                         (set_tts_queue
                            (tts_queue s1 ++ [strip (text_area s)]) s1)))
                 = tts_thread_alive s).
    { unfold tts_thread_alive. cbn. now rewrite V2, V3. }
    rewrite Ha. destruct (tts_thread_alive s) eqn:Hal; cbn [negb].
    - split; [cbn; now rewrite V5|]. split; [reflexivity|].
      split; [apply (reported_status_last _ (clock s)); cbn; now rewrite Hc|].
      split; [cbn; rewrite V5; destruct (tts_queue s); cbn;
              now rewrite ?orb_true_r|].
      split; [exact Hen|].
      split; [unfold tts_thread_alive in *; cbn; now rewrite V2, V3|].
      split; [intros _; cbn; now rewrite V1, V2, V3|].
      split; [discriminate | exact Ht].
    - split; [cbn; now rewrite V5|]. split; [reflexivity|].
      split; [apply (reported_status_last _ (clock s)); cbn; now rewrite Hc|].
      split; [cbn; rewrite V5; destruct (tts_queue s); cbn;
              now rewrite ?orb_true_r|].
      split; [exact Hen|].
      split; [unfold tts_thread_alive; cbn;
              now rewrite list_lookup_middle by reflexivity|].
      split; [discriminate|].
      split; [intros _; cbn; now rewrite V2 | exact Ht]. }
  unfold on_speak. rewrite Hp. cbn [negb].
  destruct (tts_engine s) as [e|] eqn:Ee.
  - apply (Hgen s); try reflexivity. now rewrite Ee.
  - destruct He as [He | ->]; [congruence|].
    apply (Hgen (set_tts_engine (Some Pyttsx3Engine) s)); try reflexivity.
    discriminate.
Qed.

Lemma speak_enqueues_stripped_text_witness :
  tts_queue two_queued = ["first"; "second"] /\
  reported_status two_queued = "Queued for speaking..." /\
  tts_threads two_queued = [WHead].
Proof.
  assert (He : tts_engine
                 (set_text_area " second "
                    (on_speak env_full Returns
                       (set_text_area "first" (build env_full)))) <> None)
    by (vm_compute; discriminate).
  pose proof (speak_enqueues_stripped_text env_full Returns
                (set_text_area " second "
                   (on_speak env_full Returns
                      (set_text_area "first" (build env_full))))
                eq_refl (or_introl He) eq_refl)
    as (H1 & _ & H3 & _ & _ & _ & H7 & _).
  split; [exact H1|]. split; [exact H3|]. exact (proj1 (H7 eq_refl)).
Defined.

End Speech.

(** ** The worker loop *)

Section Worker.

(** What one step of a worker that has not left does, by program point. *)
Lemma tts_step_progress (env : Env) (tid : nat) (o : Outcome) (pc : TtsPc)
    (s : App) :
  tts_threads s !! tid = Some pc -> is_alive pc = true ->
  exists s' pc',
    tts_step env tid o s = Some s' /\
    tts_threads s' = <[tid:=pc']> (tts_threads s) /\
    tts_stop_event s' = tts_stop_event s /\
    match pc with
    | WHead =>
        if tts_stop_event s then pc' = WExit /\ is_speaking s' = false
        else pc' = WGet
    | WGet =>
        match tts_queue s with
        | [] => pc' = WHead /\ is_speaking s' = false /\ tts_queue s' = []
        | text :: rest => pc' = WGot text /\ tts_queue s' = rest
        end
    | WGot text => pc' = WHead \/ pc' = WPlay text
    | WPlay text => pc' = WHead
    | WExit => False
    end.
Proof.
  intros Hpc Hal. unfold tts_step. rewrite Hpc.
  destruct pc as [| |text|text|]; [| | | |discriminate].
  - destruct (tts_stop_event s) eqn:Hs; cbn [negb];
      eexists; eexists; (split; [reflexivity|]); cbn; rewrite ?Hs; auto.
  - destruct (tts_queue s) as [|text rest] eqn:Hq.
    + destruct (is_speaking s) eqn:Hsp;
        eexists; eexists; (split; [reflexivity|]); cbn; rewrite ?Hq, ?Hsp; auto.
    + eexists; eexists; (split; [reflexivity|]); cbn; auto.
  - destruct (truthy text); cbn [negb];
      [|eexists; eexists; (split; [reflexivity|]); cbn; auto].
    destruct (bool_decide (tts_engine s = None) && pyttsx3 env).
    + destruct o; cbv zeta;
        eexists; eexists; (split; [reflexivity|]); cbn; auto.
    + destruct (bool_decide (is_Some (tts_engine s))); cbn [negb];
        eexists; eexists; (split; [reflexivity|]); cbn; auto.
  - destruct o; eexists; eexists; (split; [reflexivity|]); cbn; auto.
Qed.

(** X10: While the stop event is clear a worker never leaves its loop, whatever
    its step finds: it is alive after every step and the event is still
    clear; in particular a wait on the empty queue that times out sends it
    back to the loop head, with the speaking flag cleared. *)
Theorem worker_keeps_polling (env : Env) (tid : nat) (o : Outcome)
    (s s' : App) :
  tts_stop_event s = false ->
  tts_step env tid o s = Some s' ->
  tts_stop_event s' = false /\
  length (tts_threads s') = length (tts_threads s) /\
  (exists pc', tts_threads s' !! tid = Some pc' /\ is_alive pc' = true) /\
  (tts_threads s !! tid = Some WGet -> tts_queue s = [] ->
   tts_threads s' !! tid = Some WHead /\ is_speaking s' = false).
Proof.
  intros Hstop Hstep.
  destruct (tts_threads s !! tid) as [pc|] eqn:Hpc.
  2:{ unfold tts_step in Hstep. rewrite Hpc in Hstep. discriminate. }
  assert (Hal : is_alive pc = true).
  { destruct pc; try reflexivity.
    unfold tts_step in Hstep. rewrite Hpc in Hstep. discriminate. }
  assert (Hlt : tid < length (tts_threads s)) by now apply lookup_lt_Some in Hpc.
  destruct (tts_step_progress env tid o pc s Hpc Hal)
    as (s1 & pc' & E & Hts & Hev & Hcase).
  rewrite E in Hstep. injection Hstep as <-.
  split; [congruence|]. split; [now rewrite Hts, length_insert|].
  assert (Hlook : tts_threads s1 !! tid = Some pc').
  { rewrite Hts. now apply list_lookup_insert_eq. }
  split.
  - exists pc'. split; [exact Hlook|].
    destruct pc; try contradiction.
    + rewrite Hstop in Hcase. now subst pc'.
    + destruct (tts_queue s); [destruct Hcase as (-> & _) | destruct Hcase as (-> & _)];
        reflexivity.
    + destruct Hcase as [-> | ->]; reflexivity.
    + now subst pc'.
  - intros Hget Hq. assert (pc = WGet) by congruence. subst pc.
    rewrite Hq in Hcase. destruct Hcase as (-> & Hsp & _). auto.
Qed.

Lemma worker_keeps_polling_witness :
  exists s',
    tts_step env_full 0 Returns
      (set_tts_threads [WGet] (build env_full)) = Some s' /\
    tts_threads s' !! 0 = Some WHead /\ tts_stop_event s' = false.
Proof.
  destruct (tts_step env_full 0 Returns (set_tts_threads [WGet] (build env_full)))
    as [s'|] eqn:E; [|vm_compute in E; discriminate].
  exists s'. split; [reflexivity|].
  pose proof (worker_keeps_polling env_full 0 Returns
                (set_tts_threads [WGet] (build env_full)) s' eq_refl E)
    as (H1 & _ & _ & H4).
  split; [exact (proj1 (H4 eq_refl eq_refl)) | exact H1].
Defined.





(** X12: Stop does not cancel an item a worker has already taken from the queue:
    whatever Stop did, when [pyttsx3] is available and the engine can be
    initialised the worker's next step enters the playback call for that
    item, re-creating the engine Stop dropped and setting the speaking flag
    again. *)
Theorem stop_does_not_cancel_held_item (env : Env) (tid : nat) (text : string)
    (s : App) :
  tts_threads s !! tid = Some (WGot text) ->
  truthy text = true -> pyttsx3 env = true ->
  exists s',
    tts_step env tid Returns (on_stop_button s) = Some s' /\
    tts_threads s' !! tid = Some (WPlay text) /\
    is_speaking s' = true /\
    tts_engine s' = Some Pyttsx3Engine /\
    events s' = EvSay tid text :: events s /\
    reported_status s' = "Speaking...".
Proof.
  intros Hpc Htxt Hp.
  assert (Hgen : forall s1 : App,
            tts_threads s1 = tts_threads s -> events s1 = events s ->
            exists s',
              tts_step env tid Returns s1 = Some s' /\
              tts_threads s' !! tid = Some (WPlay text) /\
              is_speaking s' = true /\
              tts_engine s' = Some Pyttsx3Engine /\
              events s' = EvSay tid text :: events s /\
              reported_status s' = "Speaking...").
  { intros s1 Hts Hev.
    assert (Hlt : tid < length (tts_threads s1)).
    { rewrite Hts. now apply lookup_lt_Some in Hpc. }
    unfold tts_step. rewrite Hts, Hpc, Htxt, Hp. cbn [negb].
    rewrite andb_true_r.
    destruct (tts_engine s1) as [[]|] eqn:Ee.
    - rewrite bool_decide_eq_false_2 by discriminate.
      rewrite Ee. rewrite bool_decide_eq_true_2 by eauto. cbn [negb].
      eexists. split; [reflexivity|].
      split; [cbn; now apply list_lookup_insert_eq|].
      split; [reflexivity|]. split; [exact Ee|]. split; [cbn; now rewrite Hev|].
      apply (reported_status_last_update _ (clock s1)). cbn.
      now rewrite <- app_assoc.
    - rewrite bool_decide_eq_true_2 by reflexivity.
      cbn [tts_engine set_tts_engine]. rewrite bool_decide_eq_true_2 by eauto.
      cbn [negb].
      eexists. split; [reflexivity|].
      split; [cbn; now apply list_lookup_insert_eq|].
      split; [reflexivity|]. split; [reflexivity|]. split; [cbn; now rewrite Hev|].
      apply (reported_status_last_update _ (clock s1)). cbn.
      now rewrite <- app_assoc. }
  apply Hgen; unfold on_stop_button;
    repeat match goal with
           | |- context [if ?b then _ else _] => destruct b
           end; reflexivity.
Qed.

Lemma stop_does_not_cancel_held_item_witness :
  exists s',
    tts_step env_full 0 Returns (on_stop_button first_held) = Some s' /\
    tts_queue (on_stop_button first_held) = [] /\
    tts_engine (on_stop_button first_held) = None /\
    played (events s') = ["first"].
Proof.
  assert (Hpc : tts_threads first_held !! 0 = Some (WGot "first"))
    by (vm_compute; reflexivity).
  destruct (stop_does_not_cancel_held_item env_full 0 "first" first_held
              Hpc eq_refl eq_refl) as (s' & H1 & _ & _ & _ & H5 & _).
  exists s'. split; [exact H1|]. split; [vm_compute; reflexivity|].
  split; [vm_compute; reflexivity|].
  rewrite H5. vm_compute. reflexivity.
Defined.

(** X13: A playback call that raises: the worker opens the "TTS Error" pop-up,
    reports "TTS error.", drops the engine handle and returns to the loop
    head.  The failed item is not put back on the queue, and the speaking
    flag is left as it was. *)
Theorem worker_playback_failure (env : Env) (tid : nat) (e text : string)
    (s : App) :
  tts_threads s !! tid = Some (WPlay text) ->
  exists s',
    tts_step env tid (Raises e) s = Some s' /\
    tts_threads s' !! tid = Some WHead /\
    tts_engine s' = None /\
    popups s' = popups s ++ [("TTS Error", e)] /\
    reported_status s' = "TTS error." /\
    tts_queue s' = tts_queue s /\
    is_speaking s' = is_speaking s /\
    events s' = EvDone tid text :: events s.
Proof.
  intros Hpc. unfold tts_step. rewrite Hpc.
  eexists. split; [reflexivity|].
  split; [cbn; apply list_lookup_insert_eq; now apply lookup_lt_Some in Hpc|].
  split; [reflexivity|]. split; [reflexivity|].
  split; [apply (reported_status_last _ (clock s)); reflexivity|].
  repeat split; reflexivity.
Qed.

Lemma worker_playback_failure_witness :
  exists s',
    tts_step env_full 0 (Raises "device busy") playing_memo = Some s' /\
    tts_engine s' = None /\ reported_status s' = "TTS error.".
Proof.
  assert (Hpc : tts_threads playing_memo !! 0 = Some (WPlay "memo"))
    by (vm_compute; reflexivity).
  destruct (worker_playback_failure env_full 0 "device busy" "memo" playing_memo Hpc)
    as (s' & H1 & _ & H3 & _ & H5 & _).
  exists s'. exact (conj H1 (conj H3 H5)).
Defined.

(** X14: An item taken while the engine handle is absent, whose engine
    initialisation raises: the worker opens the "TTS Error" pop-up with the
    "Engine init failed" message and returns to the loop head without
    playing; the item is gone from the queue and is not retried, and the
    engine handle stays absent. *)
Theorem worker_skips_item_when_init_fails (env : Env) (tid : nat)
    (e text : string) (s : App) :
  tts_threads s !! tid = Some (WGot text) ->
  truthy text = true -> pyttsx3 env = true -> tts_engine s = None ->
  exists s',
    tts_step env tid (Raises e) s = Some s' /\
    tts_threads s' !! tid = Some WHead /\
    tts_engine s' = None /\
    popups s' = popups s ++ [("TTS Error", "Engine init failed: " +:+ e)] /\
    tts_queue s' = tts_queue s /\
    played (events s') = played (events s) /\
    events s' = EvSkip tid text :: events s /\
    is_speaking s' = is_speaking s /\
    clock s' = clock s.
Proof.
  intros Hpc Htxt Hp He. unfold tts_step. rewrite Hpc, Htxt, Hp, He.
  cbn [negb]. rewrite bool_decide_eq_true_2 by reflexivity. cbn [andb].
  eexists. split; [reflexivity|].
  split; [cbn; apply list_lookup_insert_eq; now apply lookup_lt_Some in Hpc|].
  split; [exact He|]. repeat split; reflexivity.
Qed.

Lemma worker_skips_item_when_init_fails_witness :
  exists s',
    tts_step env_full 0 (Raises "no driver")
      (set_tts_engine None item_held) = Some s' /\
    tts_threads s' !! 0 = Some WHead /\ played (events s') = [].
Proof.
  assert (Hpc : tts_threads (set_tts_engine None item_held) !! 0
                = Some (WGot "memo")) by (vm_compute; reflexivity).
  destruct (worker_skips_item_when_init_fails env_full 0 "no driver" "memo"
              (set_tts_engine None item_held) Hpc eq_refl eq_refl eq_refl)
    as (s' & H1 & H2 & _ & _ & _ & H6 & _).
  exists s'. split; [exact H1|]. split; [exact H2|].
  rewrite H6. vm_compute. reflexivity.
Defined.

End Worker.

(** ** Utterances and chunks from end to end *)

Section EndToEnd.

Lemma tts_step_queue (env : Env) (tid : nat) (o : Outcome) (pc : TtsPc)
    (s s' : App) :
  tts_threads s !! tid = Some pc -> tts_step env tid o s = Some s' ->
  tts_queue s' = match pc with
                 | WGet => tail (tts_queue s)
                 | _ => tts_queue s
                 end.
Proof.
  intros Hpc. unfold tts_step. rewrite Hpc.
  destruct pc as [| |text|text|]; [| | | |discriminate].
  - destruct (tts_stop_event s); intros E; inversion E; reflexivity.
  - destruct (tts_queue s) eqn:Hq; [destruct (is_speaking s)|];
      intros E; inversion E; cbn; now rewrite ?Hq.
  - destruct (truthy text); cbn [negb]; [|intros E; inversion E; reflexivity].
    destruct (bool_decide (tts_engine s = None) && pyttsx3 env).
    + destruct o; cbv zeta; intros E; inversion E; reflexivity.
    + destruct (bool_decide (is_Some (tts_engine s)));
        intros E; inversion E; reflexivity.
  - destruct o; intros E; inversion E; reflexivity.
Qed.

Lemma utterances_nonempty_view (s s' : App) :
  tts_view s' = tts_view s -> utterances_nonempty s -> utterances_nonempty s'.
Proof.
  unfold tts_view, utterances_nonempty. intros E H.
  injection E as _ E2 _ _ E5. now rewrite E2, E5.
Qed.

Lemma on_stop_button_speech (s : App) :
  (tts_queue (on_stop_button s) = [] \/
   tts_queue (on_stop_button s) = tts_queue s) /\
  tts_threads (on_stop_button s) = tts_threads s /\
  events (on_stop_button s) = events s.
Proof.
  unfold on_stop_button.
  repeat match goal with
         | |- context [if ?b then _ else _] => destruct b
         end; cbn; auto.
Qed.

Lemma utterances_nonempty_step (env : Env) (a : Action) (s s' : App) :
  utterances_nonempty s -> step env a s = Some s' -> utterances_nonempty s'.
Proof.
  intros Hinv. destruct a; cbn [step]; unfold pressed.
  - destruct (record_disabled _); [discriminate|]. intros E. inversion E.
    exact (utterances_nonempty_view _ _ (on_record_view env s) Hinv).
  - destruct (stop_disabled _); [discriminate|]. intros E. inversion E.
    destruct (on_stop_button_speech s) as (Hq & Hts & _).
    destruct Hinv as [H1 H2]. split; [|now rewrite Hts].
    destruct Hq as [-> | ->]; [constructor | exact H1].
  - destruct (speak_disabled _); [discriminate|]. intros E. inversion E.
    destruct (on_speak_view env init s) as [Hv | (Htxt & Hq & Hev & Hth)].
    { exact (utterances_nonempty_view _ _ Hv Hinv). }
    destruct Hinv as [H1 H2]. split.
    + rewrite Hq. apply Forall_app. split; [exact H1|].
      constructor; [exact Htxt | constructor].
    + destruct Hth as [(_ & _ & -> & _) | (_ & _ & -> & _)]; [exact H2|].
      apply Forall_app. split; [exact H2|].
      constructor; [constructor | constructor].
  - destruct (new_disabled _); [discriminate|]. intros E. inversion E.
    exact (utterances_nonempty_view _ s eq_refl Hinv).
  - destruct (save_disabled _); [discriminate|]. intros E. inversion E.
    exact (utterances_nonempty_view _ _ (on_save_view env now entered write s) Hinv).
  - intros E. inversion E. exact (utterances_nonempty_view _ s eq_refl Hinv).
  - intros E. inversion E. exact (utterances_nonempty_view _ s eq_refl Hinv).
  - intros E. inversion E.
    exact (utterances_nonempty_view _ _ (frame_view s) Hinv).
  - intros E. destruct Hinv as [H1 H2].
    destruct (tts_threads s !! tid) as [pc|] eqn:Hpc.
    2:{ unfold tts_step in E. rewrite Hpc in E. discriminate. }
    assert (Hal : is_alive pc = true).
    { destruct pc; try reflexivity.
      unfold tts_step in E. rewrite Hpc in E. discriminate. }
    pose proof (tts_step_queue env tid o pc s s' Hpc E) as Hq.
    destruct (tts_step_progress env tid o pc s Hpc Hal)
      as (s1 & pc' & E1 & Hts & _ & Hcase).
    rewrite E in E1. injection E1 as <-.
    assert (Hhand : Forall (fun text => truthy text = true) (in_hand_of pc)).
    { exact (Forall_lookup_1 _ _ _ _ H2 Hpc). }
    split.
    + rewrite Hq. destruct pc; try exact H1.
      destruct (tts_queue s); [constructor | now inversion H1].
    + rewrite Hts. apply Forall_insert; [exact H2|].
      destruct pc; try contradiction.
      * destruct (tts_stop_event s); [destruct Hcase as [-> _] | subst pc'];
          constructor.
      * destruct (tts_queue s) as [|text rest].
        -- destruct Hcase as (-> & _). constructor.
        -- destruct Hcase as (-> & _). inversion H1; subst.
           constructor; [assumption | constructor].
      * destruct Hcase as [-> | ->]; [constructor | exact Hhand].
      * subst pc'. constructor.
  - intros E.
    exact (utterances_nonempty_view _ _ (listen_step_view _ _ _ _ E) Hinv).
Qed.

(** X15: In every state the program reaches from [build], every utterance in the
    queue and every utterance a worker holds or plays is a non-empty string;
    so the worker's test for an empty item never fires. *)
Theorem queued_utterances_nonempty (env : Env) (acts : list Action) (s : App) :
  run env acts (build env) = Some s ->
  Forall (fun text => text <> "") (tts_queue s) /\
  (forall tid text,
     tts_threads s !! tid = Some (WGot text) \/
     tts_threads s !! tid = Some (WPlay text) -> text <> "").
Proof.
  intros Hrun.
  assert (Hinv : utterances_nonempty s).
  { revert Hrun.
    assert (H0 : utterances_nonempty (build env)) by (split; constructor).
    revert H0. generalize (build env).
    induction acts as [|a acts IH]; intros s0 H0.
    - intros E. inversion E. now subst.
    - cbn [run]. destruct (step env a s0) as [s1|] eqn:Es; [|discriminate].
      apply IH. exact (utterances_nonempty_step env a s0 s1 H0 Es). }
  destruct Hinv as [H1 H2]. split.
  - eapply Forall_impl; [exact H1|]. intros text Ht ->. discriminate.
  - intros tid text Hl.
    assert (Ht : truthy text = true).
    { destruct Hl as [Hl | Hl];
        pose proof (Forall_lookup_1 _ _ _ _ H2 Hl) as Hf;
        now inversion Hf. }
    intros ->. discriminate.
Qed.

Lemma queued_utterances_nonempty_witness :
  exists s,
    run env_full [Edit " x "; PressSpeak Returns; Edit "   "; PressSpeak Returns]
      (build env_full) = Some s /\
    tts_queue s = ["x"] /\
    Forall (fun text => text <> "") (tts_queue s).
Proof.
  destruct (run env_full
              [Edit " x "; PressSpeak Returns; Edit "   "; PressSpeak Returns]
              (build env_full)) as [s|] eqn:Hrun;
    [|vm_compute in Hrun; discriminate].
  exists s. split; [reflexivity|].
  pose proof (queued_utterances_nonempty env_full _ s Hrun) as (Hq & _).
  vm_compute in Hrun. injection Hrun as E. rewrite <- E in Hq |- *.
  split; [reflexivity | exact Hq].
Defined.

Lemma play_one_run (env : Env) (tid : nat) (text : string) (rest : list string)
    (s : App) :
  tts_threads s !! tid = Some WHead -> tts_stop_event s = false ->
  tts_queue s = text :: rest -> truthy text = true ->
  tts_engine s <> None ->
  exists s',
    run env (play_one tid) s = Some s' /\
    tts_threads s' = tts_threads s /\
    tts_stop_event s' = false /\
    tts_queue s' = rest /\
    tts_engine s' = tts_engine s /\
    played (events s') = played (events s) ++ [text] /\
    (in_flight (events s) = Some None -> in_flight (events s') = Some None) /\
    is_speaking s' = true /\
    popups s' = popups s /\
    text_area s' = text_area s.
Proof.
  intros Hpc Hstop Hq Htxt He.
  assert (Hlt : tid < length (tts_threads s)) by now apply lookup_lt_Some in Hpc.
  destruct (tts_engine s) as [eng|] eqn:Ee; [clear He | congruence].
  pose (s1 := set_tts_pc tid WGet s).
  assert (E1 : tts_step env tid Returns s = Some s1).
  { unfold tts_step. now rewrite Hpc, Hstop. }
  pose (s2 := set_tts_pc tid (WGot text) (log (EvGet tid text) (set_tts_queue rest s1))).
  assert (E2 : tts_step env tid Returns s1 = Some s2).
  { unfold tts_step.
    replace (tts_threads s1 !! tid) with (Some WGet)
      by (symmetry; cbn; now apply list_lookup_insert_eq).
    change (tts_queue s1) with (tts_queue s). now rewrite Hq. }
  pose (s3 := set_tts_pc tid (WPlay text)
                (log (EvSay tid text)
                   (schedule_update_buttons
                      (_set_status "Speaking..." (set_is_speaking true s2))))).
  assert (E3 : tts_step env tid Returns s2 = Some s3).
  { unfold tts_step.
    replace (tts_threads s2 !! tid) with (Some (WGot text))
      by (symmetry; cbn; apply list_lookup_insert_eq;
          now rewrite length_insert).
    rewrite Htxt. cbn [negb].
    change (tts_engine s2) with (tts_engine s). rewrite Ee.
    rewrite bool_decide_eq_false_2 by discriminate. cbn [andb].
    change (tts_engine s2) with (tts_engine s). rewrite Ee.
    rewrite bool_decide_eq_true_2 by eauto. reflexivity. }
  pose (s4 := set_tts_pc tid WHead (log (EvDone tid text) s3)).
  assert (E4 : tts_step env tid Returns s3 = Some s4).
  { unfold tts_step.
    replace (tts_threads s3 !! tid) with (Some (WPlay text))
      by (symmetry; cbn; apply list_lookup_insert_eq;
          now rewrite !length_insert).
    reflexivity. }
  exists s4. unfold play_one. cbn [run step]. rewrite E1, E2, E3, E4.
  split; [reflexivity|].
  split.
  { cbn. rewrite !list_insert_insert_eq. now apply list_insert_id. }
  split; [exact Hstop|]. split; [reflexivity|]. split; [exact Ee|].
  split; [reflexivity|].
  split.
  { intros Hfl. cbn. rewrite Hfl.
    now rewrite bool_decide_eq_true_2 by reflexivity. }
  repeat split; reflexivity.
Qed.

(** X16: End to end on the speech side: a worker at its loop head, with the stop
    event clear, the engine present and any queue of non-empty utterances,
    plays the whole queue in queue order when it is given four steps per
    item in which every library call returns; the queue is then empty, no
    pop-up has opened, the worker is back at its loop head, and if no
    playback was in flight before, the playback calls made did not
    overlap. *)
Theorem worker_plays_whole_queue (env : Env) (tid : nat) (s : App) :
  tts_threads s !! tid = Some WHead -> tts_stop_event s = false ->
  tts_engine s <> None ->
  Forall (fun text => truthy text = true) (tts_queue s) ->
  exists s',
    run env (play_many tid (length (tts_queue s))) s = Some s' /\
    tts_queue s' = [] /\
    played (events s') = played (events s) ++ tts_queue s /\
    (in_flight (events s) = Some None -> in_flight (events s') = Some None) /\
    tts_threads s' = tts_threads s /\
    tts_engine s' = tts_engine s /\
    popups s' = popups s.
Proof.
  remember (tts_queue s) as q eqn:Hq. revert s Hq.
  induction q as [|text rest IH]; intros s Hq Hpc Hstop He Hall.
  - exists s. cbn. rewrite app_nil_r. repeat split; auto.
  - inversion Hall as [|? ? Htxt Hrest]; subst.
    destruct (play_one_run env tid text rest s Hpc Hstop (eq_sym Hq) Htxt He)
      as (s1 & Hr & Hts & Hst & Hq1 & Hen & Hpl & Hfl & _ & Hpop & _).
    destruct (IH s1 (eq_sym Hq1)) as (s' & Hr' & H1 & H2 & H3 & H4 & H5 & H6).
    { now rewrite Hts. }
    { exact Hst. }
    { now rewrite Hen. }
    { exact Hrest. }
    exists s'. unfold play_many. cbn [length replicate concat].
    rewrite run_app, Hr. split; [exact Hr'|]. split; [exact H1|].
    split; [rewrite H2, Hpl; now rewrite <- app_assoc|].
    split; [auto|]. split; [congruence|]. split; congruence.
Qed.

Lemma worker_plays_whole_queue_witness :
  exists s',
    run env_full (play_many 0 2) two_queued = Some s' /\
    tts_queue s' = [] /\
    played (events s') = ["first"; "second"].
Proof.
  assert (Hpc : tts_threads two_queued !! 0 = Some WHead)
    by (vm_compute; reflexivity).
  assert (He : tts_engine two_queued <> None) by (vm_compute; discriminate).
  assert (Hall : Forall (fun text => truthy text = true) (tts_queue two_queued)).
  { change (tts_queue two_queued) with ["first"; "second"].
    repeat constructor. }
  destruct (worker_plays_whole_queue env_full 0 two_queued Hpc eq_refl He Hall)
    as (s' & H1 & H2 & H3 & _).
  exists s'. split; [exact H1|]. split; [exact H2|]. rewrite H3. reflexivity.
Defined.

Lemma hear_one_run (env : Env) (tid : nat) (text : string) (s : App) :
  listen_threads s !! tid = Some LHead -> listen_stop_event s = false ->
  exists s',
    run env (hear_one tid text) s = Some s' /\
    listen_threads s' = listen_threads s /\
    listen_stop_event s' = false /\
    results_queue s' = results_queue s ++ [text] /\
    text_area s' = text_area s /\
    is_listening s' = is_listening s.
Proof.
  intros Hpc Hstop.
  assert (Hlt : tid < length (listen_threads s)) by now apply lookup_lt_Some in Hpc.
  pose (s1 := set_listen_pc tid LListen s).
  assert (E1 : listen_step tid WaitTimeout s = Some s1).
  { unfold listen_step. now rewrite Hpc, Hstop. }
  pose (s2 := set_listen_pc tid LHead
                (_set_status "Recognized."
                   (set_results_queue (results_queue s1 ++ [text]) s1))).
  assert (E2 : listen_step tid (Recognized text) s1 = Some s2).
  { unfold listen_step.
    replace (listen_threads s1 !! tid) with (Some LListen)
      by (symmetry; cbn; now apply list_lookup_insert_eq).
    reflexivity. }
  exists s2. unfold hear_one. cbn [run step]. rewrite E1, E2.
  split; [reflexivity|].
  split.
  { cbn. rewrite list_insert_insert_eq. now apply list_insert_id. }
  repeat split; first [exact Hstop | reflexivity].
Qed.

(** X17: End to end on the capture side: what a capture thread recognises in
    successive cycles is queued in that order, and the next poller tick
    appends it to the document in that order (after whatever was queued
    before), each non-empty chunk followed by a space unless it ends with
    one, leaving the transcript queue empty. *)
Theorem dictation_in_capture_order (env : Env) (tid : nat)
    (texts : list string) (s : App) :
  listen_threads s !! tid = Some LHead -> listen_stop_event s = false ->
  exists s',
    run env (hear_many tid texts ++ [Tick]) s = Some s' /\
    results_queue s' = [] /\
    text_area s' =
      text_area s +:+
      String.concat ""
        (map space_terminated
           (filter (fun c => Is_true (truthy c)) (results_queue s ++ texts))) /\
    listen_threads s' = listen_threads s.
Proof.
  intros Hpc Hstop.
  assert (Hmany : exists s1,
            run env (hear_many tid texts) s = Some s1 /\
            listen_threads s1 = listen_threads s /\
            listen_stop_event s1 = false /\
            results_queue s1 = results_queue s ++ texts /\
            text_area s1 = text_area s).
  { revert s Hpc Hstop. induction texts as [|text texts IH]; intros s Hpc Hstop.
    - exists s. cbn. rewrite app_nil_r. auto.
    - destruct (hear_one_run env tid text s Hpc Hstop)
        as (s1 & Hr & Hts & Hst & Hq & Ht & _).
      destruct (IH s1) as (s2 & Hr2 & Hts2 & Hst2 & Hq2 & Ht2).
      { now rewrite Hts. }
      { exact Hst. }
      exists s2. unfold hear_many. cbn [map concat].
      rewrite run_app, Hr. split; [exact Hr2|].
      split; [congruence|]. split; [exact Hst2|].
      split; [rewrite Hq2, Hq; now rewrite <- app_assoc | congruence]. }
  destruct Hmany as (s1 & Hr & Hts & _ & Hq & Ht).
  exists (_process_results_queue s1). rewrite run_app, Hr. cbn [run step].
  split; [reflexivity|]. split; [reflexivity|].
  split; [|exact Hts].
  change (text_area (_process_results_queue s1))
    with (drain_results (results_queue s1) (text_area s1)).
  now rewrite drain_results_gain, Hq, Ht.
Qed.

Lemma dictation_in_capture_order_witness :
  exists s',
    run env_full (hear_many 0 ["buy milk"; ""; "call home "] ++ [Tick])
      at_loop_head = Some s' /\
    text_area s' = "buy milk call home ".
Proof.
  destruct (dictation_in_capture_order env_full 0
              ["buy milk"; ""; "call home "] at_loop_head eq_refl eq_refl)
    as (s' & H1 & _ & H3 & _).
  exists s'. split; [exact H1|]. rewrite H3. reflexivity.
Defined.

End EndToEnd.

(** ** The Clock, the document and the dialogs *)

Section Shell.

Lemma fold_callbacks_fields (cbs : list Callback) (s : App) :
  let r := fold_left (fun s cb => run_callback cb s) cbs s in
  clock r = clock s /\ tts_queue r = tts_queue s /\
  is_speaking r = is_speaking s /\ is_listening r = is_listening s /\
  text_area r = text_area s /\ results_queue r = results_queue s /\
  popups r = popups s /\ files r = files s /\ tts_engine r = tts_engine s.
Proof.
  revert s. induction cbs as [|cb cbs IH]; intros s; [cbn; tauto|].
  cbn [fold_left]. cbn zeta in IH.
  destruct (IH (run_callback cb s)) as (H1 & H2 & H3 & H4 & H5 & H6 & H7 & H8 & H9).
  cbn zeta. rewrite H1, H2, H3, H4, H5, H6, H7, H8, H9.
  destruct cb; repeat split; reflexivity.
Qed.

Lemma set_clock_nil_id (s : App) : clock s = [] -> set_clock [] s = s.
Proof. destruct s. cbn. now intros ->. Qed.

Lemma fold_callbacks_exact (cbs : list Callback) (s : App) :
  fold_left (fun s cb => run_callback cb s) cbs s =
  set_buttons
    (if has_update cbs then buttons (_update_buttons s) else buttons s)
    (set_status_label (last_status cbs (status_label s)) s).
Proof.
  revert s. induction cbs as [|cb cbs IH]; intros s.
  - destruct s. reflexivity.
  - cbn [fold_left]. rewrite IH. unfold has_update. cbn [existsb last_status].
    fold (has_update cbs).
    destruct cb; cbn [run_callback orb]; destruct (has_update cbs); reflexivity.
Qed.

(** X18: One frame of the Clock runs every scheduled callback and leaves
    none.  The state after the frame is the state before it with the pending
    list emptied, the label set to the status reported last (kept when no
    status was pending) and the buttons set to those [_update_buttons]
    computes on the current state when a button update was pending (kept
    otherwise); every other field is as before, and a second frame changes
    nothing. *)
Theorem frame_flushes_clock (s : App) :
  frame s =
    set_clock []
      (set_buttons
         (if has_update (clock s) then buttons (_update_buttons s)
          else buttons s)
         (set_status_label (last_status (clock s) (status_label s)) s)) /\
  clock (frame s) = [] /\
  frame (frame s) = frame s /\
  (forall cbs text,
     clock s = cbs ++ [CbStatus text] -> status_label (frame s) = text) /\
  (forall cbs,
     clock s = cbs ++ [CbUpdateButtons] ->
     buttons (frame s) = buttons (_update_buttons s)) /\
  (clock s = [] -> frame s = s) /\
  tts_view (frame s) = tts_view s /\
  listen_view (frame s) = listen_view s /\
  listen_stop_event (frame s) = listen_stop_event s /\
  text_area (frame s) = text_area s /\
  results_queue (frame s) = results_queue s /\
  tts_engine (frame s) = tts_engine s /\
  is_speaking (frame s) = is_speaking s /\
  popups (frame s) = popups s /\
  files (frame s) = files s /\
  listen_threads (frame s) = listen_threads s.
Proof.
  assert (Hex : frame s =
    set_clock []
      (set_buttons
         (if has_update (clock s) then buttons (_update_buttons s)
          else buttons s)
         (set_status_label (last_status (clock s) (status_label s)) s))).
  { unfold frame. rewrite fold_callbacks_exact. reflexivity. }
  pose proof (fold_callbacks_fields (clock s) (set_clock [] s)) as Hf.
  cbn zeta in Hf. fold (frame s) in Hf.
  destruct Hf as (H1 & H2 & H3 & H4 & H5 & H6 & H7 & H8 & H9).
  split; [exact Hex|].
  split; [exact H1|].
  split.
  { unfold frame at 1. rewrite H1. cbn [fold_left].
    now apply set_clock_nil_id. }
  split.
  { intros cbs text Hc. unfold frame. rewrite Hc, fold_callbacks_app.
    reflexivity. }
  split.
  { intros cbs Hc. unfold frame. rewrite Hc, fold_callbacks_app.
    cbn [fold_left run_callback].
    pose proof (fold_callbacks_fields cbs (set_clock [] s)) as Hg.
    cbn zeta in Hg. destruct Hg as (_ & G2 & G3 & G4 & _).
    cbn. cbn in G2, G3, G4. now rewrite G2, G3, G4. }
  split.
  { intros Hc. unfold frame. rewrite Hc. cbn [fold_left].
    now apply set_clock_nil_id. }
  split; [apply frame_view|]. split; [apply frame_listen_view|].
  rewrite Hex. repeat split; reflexivity.
Qed.

(** [render] after [parse] on the shapes of path text that differ in their
    root or carry components [pathlib] drops. *)
Lemma render_parse_examples :
  render (parse "//srv/notes/a.txt") = "//srv/notes/a.txt" /\
  render (parse "///srv/a.txt") = "/srv/a.txt" /\
  render (parse "/srv//notes/./a.txt") = "/srv/notes/a.txt" /\
  render (parse "notes/../a.txt") = "notes/../a.txt" /\
  render (parse "notes/") = "notes" /\
  render (parse "") = "." /\
  render (parse "/") = "/" /\
  render (parse "//") = "//" /\
  render (joinpath (parse "/app/notes") "//tmp/y.txt") = "//tmp/y.txt".
Proof. repeat split; reflexivity. Qed.

(** X19: Loading: an empty selection changes nothing; a read that raises opens
    the "Load Error" pop-up and leaves the document and the status alone; a
    read that returns replaces the whole document by the content and
    reports "Loaded: <path>".  Recording, the queues and the speech side
    are untouched in every case. *)
Theorem load_selected_outcomes (read : ReadOutcome) (first : string)
    (rest : list string) (e content : string) (s : App) :
  load_selected [] read s = s /\
  (let s' := load_selected (first :: rest) (ReadRaises e) s in
   text_area s' = text_area s /\ clock s' = clock s /\
   popups s' = popups s ++ [("Load Error", e)]) /\
  (let s' := load_selected (first :: rest) (ReadReturns content) s in
   text_area s' = content /\
   reported_status s' = "Loaded: " +:+ render (parse first) /\
   popups s' = popups s) /\
  (forall selection,
     let s' := load_selected selection read s in
     tts_view s' = tts_view s /\ listen_view s' = listen_view s /\
     results_queue s' = results_queue s /\ files s' = files s).
Proof.
  split; [reflexivity|]. split; [repeat split; reflexivity|].
  split.
  - cbn zeta. split; [reflexivity|].
    split; [apply (reported_status_last _ (clock s)); reflexivity | reflexivity].
  - intros [|p l]; cbn zeta; [repeat split; reflexivity|].
    destruct read; repeat split; reflexivity.
Qed.

(** X20: Saving: a write that returns records exactly the text of the document
    under the path and reports "Saved to <path>"; a write that raises
    records nothing, reports no status and opens the "Save Error" pop-up
    with the exception text.  The document is unchanged either way. *)
Theorem do_save_outcomes (env : Env) (dflt entered e : string) (s : App) :
  (let s' := do_save env dflt entered Returns s in
   files s' = (save_path env entered dflt, text_area s) :: files s /\
   reported_status s' = "Saved to " +:+ render (save_path env entered dflt) /\
   popups s' = popups s /\
   text_area s' = text_area s) /\
  (let s' := do_save env dflt entered (Raises e) s in
   files s' = files s /\
   clock s' = clock s /\
   popups s' = popups s ++ [("Save Error", e)] /\
   text_area s' = text_area s).
Proof.
  split; cbn zeta.
  - split; [reflexivity|].
    split; [apply (reported_status_last _ (clock s)); reflexivity|].
    split; reflexivity.
  - repeat split; reflexivity.
Qed.

(** X21: New empties the document and reports "Cleared.", but not the queues:
    utterances already queued stay queued, and chunks still waiting in the
    transcript queue are appended to the emptied document at the next
    poller tick. *)
Theorem new_keeps_pending_work (s : App) :
  text_area (on_new s) = "" /\
  reported_status (on_new s) = "Cleared." /\
  tts_view (on_new s) = tts_view s /\
  listen_view (on_new s) = listen_view s /\
  results_queue (on_new s) = results_queue s /\
  text_area (_process_results_queue (on_new s)) =
    String.concat ""
      (map space_terminated
         (filter (fun c => Is_true (truthy c)) (results_queue s))).
Proof.
  split; [reflexivity|].
  split; [apply (reported_status_last _ (clock s)); reflexivity|].
  split; [reflexivity|]. split; [reflexivity|]. split; [reflexivity|].
  change (text_area (_process_results_queue (on_new s)))
    with (drain_results (results_queue s) "").
  now rewrite drain_results_gain.
Qed.

(** X22: Closing the application: the capture stop event is set when the program
    is listening and the speech stop event when the engine handle is
    present; unlike the Stop button, closing neither empties the utterance
    queue nor drops the engine handle, and with the engine handle absent
    the speech stop event is left as it was. *)
Theorem closing_signals_workers (s : App) :
  listen_stop_event (on_stop s) = is_listening s || listen_stop_event s /\
  tts_stop_event (on_stop s) =
    bool_decide (is_Some (tts_engine s)) || tts_stop_event s /\
  tts_queue (on_stop s) = tts_queue s /\
  tts_engine (on_stop s) = tts_engine s /\
  is_speaking (on_stop s) = is_speaking s /\
  is_listening (on_stop s) = is_listening s /\
  tts_threads (on_stop s) = tts_threads s /\
  listen_threads (on_stop s) = listen_threads s /\
  clock (on_stop s) = clock s.
Proof.
  assert (Hsome : forall eng : Engine, bool_decide (is_Some (Some eng)) = true).
  { intros eng. apply bool_decide_eq_true_2. eauto. }
  assert (Hnone : bool_decide (is_Some (@None Engine)) = false).
  { apply bool_decide_eq_false_2. intros [x Hx]. discriminate. }
  unfold on_stop.
  destruct (is_listening s) eqn:Hl; cbn [orb];
    destruct (tts_engine s) as [eng|] eqn:Ee;
    cbn [tts_engine set_listen_stop_event]; rewrite ?Ee, ?Hsome, ?Hnone;
    cbn; rewrite ?Ee, ?Hl; repeat split; reflexivity.
Qed.

Lemma rstrip_txt (s : string) : endswith s ".txt" = true -> rstrip s = s.
Proof.
  induction s as [|c s IH]; [discriminate|].
  cbn [endswith]. intros H. apply orb_true_iff in H. destruct H as [H | H].
  - apply String.eqb_eq in H. rewrite H. reflexivity.
  - cbn [rstrip]. rewrite (IH H).
    destruct s; [discriminate | reflexivity].
Qed.

Lemma rstrip_head (c : ascii) (s : string) :
  isspace c = false -> exists r, rstrip (String c s) = String c r.
Proof.
  intros Hc. cbn [rstrip]. destruct (rstrip s); rewrite ?Hc; eauto.
Qed.

Lemma lstrip_nonspace (c : ascii) (s : string) :
  isspace c = false -> lstrip (String c s) = String c s.
Proof. intros Hc. cbn [lstrip]. now rewrite Hc. Qed.

(** The name settled on starts with a character that is not white space. *)
Lemma save_name_head (entered : string) (now : DateTime) :
  exists c r,
    save_name entered (default_name now) = String c r /\ isspace c = false.
Proof.
  assert (Hname : exists c r,
            or_else (strip entered) (default_name now) = String c r /\
            isspace c = false).
  { unfold or_else. destruct (strip entered) as [|c r] eqn:Es; cbn [truthy].
    - unfold default_name. eexists; eexists. split; reflexivity.
    - unfold strip in Es. pose proof (lstrip_head entered) as Hh.
      destruct (lstrip entered) as [|c0 r0]; [discriminate|].
      destruct (rstrip_head c0 r0 Hh) as (r1 & Hr). rewrite Hr in Es.
      injection Es as <- <-. eauto. }
  destruct Hname as (c & r & Hn & Hc). unfold save_name. rewrite Hn.
  destruct (endswith (String c r) ".txt"); cbn [negb]; eauto.
Qed.

Lemma save_name_fixed (r dflt : string) :
  strip r = r -> truthy r = true -> endswith r ".txt" = true ->
  save_name r dflt = r.
Proof.
  intros Hs Ht He. unfold save_name, or_else. now rewrite Hs, Ht, He.
Qed.

(** X23: Entering the name a save settled on gives that same name again: it is
    not stripped further, it does not fall back to the default name and no
    second [.txt] is appended. *)
Theorem save_name_idempotent (entered : string) (now : DateTime) :
  save_name (save_name entered (default_name now)) (default_name now) =
  save_name entered (default_name now).
Proof.
  destruct (save_name_head entered now) as (c & r & Hn & Hc).
  pose proof (save_name_endswith entered (default_name now)) as He.
  apply save_name_fixed; [|now rewrite Hn | exact He].
  unfold strip. rewrite Hn, (lstrip_nonspace _ _ Hc), <- Hn.
  now apply rstrip_txt.
Qed.

End Shell.
